(** * Verification of the lazyverdi parsing, panel-refresh and command-runner core

    Python [str] values are modelled as [list ascii] (the ASCII subset of the
    code points the code handles); [str.strip], [str.splitlines],
    [re.split(r"\s{2,}", ...)] and the regular expressions used by the
    parsers are written out as functions over such lists. *)

From Stdlib Require Import Ascii String List Bool Arith Lia ZArith Permutation.
Import ListNotations.
Open Scope list_scope.

(** ** Python strings *)

Definition str := list ascii.

(** String literal as a [str]. *)
Definition s_ (x : string) : str := list_ascii_of_string x.

(** [str.isspace] (and [\s] of [re] on [str] patterns) on ASCII:
    tab, newline, vertical tab, form feed, carriage return, the
    separators 0x1c-0x1f and space. *)
Definition is_space (c : ascii) : bool :=
  let n := nat_of_ascii c in
  ((9 <=? n) && (n <=? 13)) || ((28 <=? n) && (n <=? 32)).

(** Line boundaries of [str.splitlines] on ASCII: \n, \r, \v, \f,
    0x1c, 0x1d, 0x1e (\r\n counts as one boundary). *)
Definition is_linebreak (c : ascii) : bool :=
  let n := nat_of_ascii c in
  ((10 <=? n) && (n <=? 13)) || ((28 <=? n) && (n <=? 30)).

Definition CR : ascii := ascii_of_nat 13.
Definition LF : ascii := ascii_of_nat 10.

Fixpoint lstrip (s : str) : str :=
  match s with
  | [] => []
  | c :: t => if is_space c then lstrip t else s
  end.

Definition rstrip (s : str) : str := rev (lstrip (rev s)).

(** [s.strip()] *)
Definition strip (s : str) : str := lstrip (rstrip s).

(** [s.startswith(p)] *)
Fixpoint prefixb (p s : str) : bool :=
  match p, s with
  | [], _ => true
  | a :: p', b :: s' => Ascii.eqb a b && prefixb p' s'
  | _ :: _, [] => false
  end.

(** [s.startswith((p1, p2, ...))] *)
Definition startswith_any (ps : list str) (s : str) : bool :=
  existsb (fun p => prefixb p s) ps.

(** [p in s] (substring test) *)
Fixpoint containsb (p s : str) : bool :=
  prefixb p s || match s with [] => false | _ :: s' => containsb p s' end.

Definition is_emptyb {A : Type} (s : list A) : bool :=
  match s with [] => true | _ => false end.

(** [s.splitlines()]: a trailing piece is produced only when non-empty. *)
Fixpoint splitlines_go (s : str) (cur : str) : list str :=
  match s with
  | [] => if is_emptyb cur then [] else [rev cur]
  | c :: t =>
      if Ascii.eqb c CR then
        match t with
        | c2 :: t' =>
            if Ascii.eqb c2 LF then rev cur :: splitlines_go t' []
            else rev cur :: splitlines_go t []
        | [] => rev cur :: splitlines_go t []
        end
      else if is_linebreak c then rev cur :: splitlines_go t []
      else splitlines_go t (c :: cur)
  end.

Definition splitlines (s : str) : list str := splitlines_go s [].

(** [s.split("\n")] *)
Fixpoint split_nl_go (s : str) (cur : str) : list str :=
  match s with
  | [] => [rev cur]
  | c :: t => if Ascii.eqb c LF then rev cur :: split_nl_go t []
              else split_nl_go t (c :: cur)
  end.

Definition split_nl (s : str) : list str := split_nl_go s [].

(** ["\n".join(xs)] *)
Fixpoint join_nl (xs : list str) : str :=
  match xs with
  | [] => []
  | [x] => x
  | x :: xs' => x ++ LF :: join_nl xs'
  end.

(** [re.match(r"^[\s\-]+$", s)] (no newline inside [s]). *)
Definition is_sep_line (s : str) : bool :=
  negb (is_emptyb s) && forallb (fun c => is_space c || Ascii.eqb c "-"%char) s.

(** [re.split(r"\s{2,}", s)]: the separators are the maximal runs of two or
    more whitespace characters ([cur] and [ws] are kept reversed). *)
Fixpoint split_ws2_go (s : str) (cur ws : str) : list str :=
  match s with
  | [] => if 2 <=? length ws then [rev cur; []] else [rev (ws ++ cur)]
  | c :: t =>
      if is_space c then split_ws2_go t cur (c :: ws)
      else if 2 <=? length ws then rev cur :: split_ws2_go t [c] []
      else split_ws2_go t (c :: ws ++ cur) []
  end.

Definition split_ws2 (s : str) : list str := split_ws2_go s [] [].

(** [[c.strip() for c in re.split(r"\s{2,}", line) if c.strip()]] *)
Definition split_cells (line : str) : list str :=
  filter (fun c => negb (is_emptyb c)) (map strip (split_ws2 line)).

(** ** [commands/parsers.py] *)
Module Parsers.

Record ParsedTable := mkTable {
  headers : list str;
  rows : list (list str);
  footer : str
}.

Definition empty_table : ParsedTable := mkTable [] [] [].

(** Prefixes that switch [parse_table] into footer mode. *)
Definition footer_triggers : list str :=
  map s_ ["Total"; "Report:"; "Info:"; "Warning:"; "Error:"; "Success:";
          "Critical:"; "Debug:"]%string.

(** [re.match(r"^(Report|Info|Warning|Error|Debug|Critical):", stripped)] *)
Definition footer_filtered : list str :=
  map s_ ["Report:"; "Info:"; "Warning:"; "Error:"; "Debug:"; "Critical:"]%string.

(** The first index of a separator line (the [for ... break] loop). *)
Fixpoint find_separator (lines : list str) : option nat :=
  match lines with
  | [] => None
  | l :: ls =>
      if is_sep_line l then Some 0
      else option_map S (find_separator ls)
  end.

(** State of the loop over the lines after the separator. *)
Record LoopState := mkLoop {
  ls_rows : list (list str);
  ls_footer_lines : list str;
  in_footer : bool
}.

Definition triggers_footer (stripped : str) : bool :=
  is_emptyb stripped || startswith_any footer_triggers stripped.

Definition keep_footer_line (stripped : str) : bool :=
  negb (is_emptyb stripped) && negb (startswith_any footer_filtered stripped).

Definition loop_step (st : LoopState) (line : str) : LoopState :=
  let stripped := strip line in
  let inf := in_footer st || triggers_footer stripped in
  if inf then
    mkLoop (ls_rows st)
           (if keep_footer_line stripped
            then ls_footer_lines st ++ [stripped] else ls_footer_lines st)
           true
  else
    let cells := split_cells line in
    mkLoop (if is_emptyb cells then ls_rows st else ls_rows st ++ [cells])
           (ls_footer_lines st) false.

Definition run_loop (lines : list str) (st : LoopState) : LoopState :=
  fold_left loop_step lines st.

Definition loop_init : LoopState := mkLoop [] [] false.

Definition parse_table (text : str) : ParsedTable :=
  let lines := splitlines (strip text) in
  match lines with
  | [] => empty_table
  | _ =>
      match find_separator lines with
      | None => mkTable [] [] text
      | Some i =>
          let hdrs := match i with
                      | 0 => []
                      | S j => split_cells (nth j lines [])
                      end in
          let st := run_loop (skipn (S i) lines) loop_init in
          mkTable hdrs (ls_rows st) (join_nl (ls_footer_lines st))
      end
  end.

(** Prefixes skipped by [parse_computer_list]. *)
Definition computer_skipped : list str :=
  map s_ ["Report:"; "Info:"; "Warning:"; "Error:"; "Success:"; "Critical:";
          "Debug:"]%string.

Definition bullet : str := s_ "* ".

(** The row (if any) contributed by one line in [parse_computer_list]. *)
Definition computer_row (line : str) : option (list str) :=
  let stripped := strip line in
  if is_emptyb stripped || startswith_any computer_skipped stripped then None
  else if prefixb bullet stripped then Some [strip (skipn 2 stripped)]
  else if negb (is_emptyb stripped) then Some [stripped]
  else None.

Fixpoint collect_rows (f : str -> option (list str)) (lines : list str)
  : list (list str) :=
  match lines with
  | [] => []
  | l :: ls => match f l with
               | Some r => r :: collect_rows f ls
               | None => collect_rows f ls
               end
  end.

Definition parse_computer_list (text : str) : ParsedTable :=
  mkTable [s_ "label"] (collect_rows computer_row (splitlines (strip text))) [].

End Parsers.

(** ** [core/runner.py]: [CommandResult] and [CommandRunner.run_command] *)
Module Runner.

Inductive Status := Running | Done | Cancelled | Failed.

(** An exception escaping a Python call: [asyncio.CancelledError] or an
    [Exception] with its type name, [str(e)] and formatted traceback. Other
    [BaseException]s (such as [SystemExit] raised by a plain function) are
    not modelled. *)
Inductive Exn :=
| CancelledError
| Fault (kind msg tb : str).

Record CommandResult := mkResult {
  cmd : str;
  stdout : str;
  stderr : str;
  exit_code : option Z;
  status : Status;
  end_time : option nat
}.

Definition set_status (s : Status) (r : CommandResult) : CommandResult :=
  mkResult (cmd r) (stdout r) (stderr r) (exit_code r) s (end_time r).
Definition set_stdout (x : str) (r : CommandResult) : CommandResult :=
  mkResult (cmd r) x (stderr r) (exit_code r) (status r) (end_time r).
Definition set_stderr (x : str) (r : CommandResult) : CommandResult :=
  mkResult (cmd r) (stdout r) x (exit_code r) (status r) (end_time r).
Definition set_exit_code (x : Z) (r : CommandResult) : CommandResult :=
  mkResult (cmd r) (stdout r) (stderr r) (Some x) (status r) (end_time r).
Definition set_end_time (t : nat) (r : CommandResult) : CommandResult :=
  mkResult (cmd r) (stdout r) (stderr r) (exit_code r) (status r) (Some t).

(** What a plain Python function does when called in the worker thread:
    return a value ([None] stands for a falsy one) or raise. *)
Inductive PlainBehaviour :=
| PReturns (output : option str)
| PRaises (e : Exn).

(** What [asyncio.to_thread(_run_click_command_isolated, ...)] does: return
    [(stdout, stderr, exit_code, exception)] (an exception caught by
    [CliRunner] as type name, message and traceback), or raise. *)
Inductive ClickBehaviour :=
| CFinishes (out err : str) (code : Z) (exception : option (str * str * str))
| CRaises (e : Exn).

Inductive Command :=
| PlainFunction (name : str) (b : PlainBehaviour)
| ClickCommand (name : str) (b : ClickBehaviour).

Definition command_name (c : Command) : str :=
  match c with PlainFunction n _ => n | ClickCommand n _ => n end.

(** Observable steps of one invocation, in program order. *)
Inductive Event :=
| Acquire
| SetStatus (s : Status)
| SetEndTime
| InvokeCallback
| Release.

Inductive Outcome :=
| Returned (r : CommandResult)
| Propagated (e : Exn) (r : CommandResult).

Fixpoint join_space (xs : list str) : str :=
  match xs with
  | [] => []
  | [x] => x
  | x :: xs' => x ++ " "%char :: join_space xs'
  end.

(** [f"{exc_type}: {exc_msg}\n\n{exc_tb}"] *)
Definition describe_exception (k m tb : str) : str :=
  k ++ s_ ": " ++ m ++ [LF; LF] ++ tb.

(** The body of the [try] inside [async with lock]: the events it emits,
    the result it leaves, and the exception escaping it. *)
Definition try_body (c : Command) (r : CommandResult)
  : list Event * CommandResult * option Exn :=
  match c with
  | PlainFunction _ (PReturns o) =>
      ([SetStatus Done],
       set_status Done (set_exit_code 0
         (set_stdout (match o with Some x => x | None => [] end) r)),
       None)
  | PlainFunction _ (PRaises CancelledError) =>
      ([SetStatus Cancelled], set_status Cancelled r, Some CancelledError)
  | PlainFunction _ (PRaises e) => ([], r, Some e)
  | ClickCommand _ (CRaises e) => ([], r, Some e)
  | ClickCommand _ (CFinishes out err code exc) =>
      let st := if Z.eqb code 0 then Done else Failed in
      let err' := match exc with
                  | None => err
                  | Some (k, m, tb) =>
                      if is_emptyb err then describe_exception k m tb
                      else err ++ [LF; LF] ++ describe_exception k m tb
                  end in
      ([SetStatus st],
       set_stderr err' (set_status st (set_exit_code code
         (set_stderr err (set_stdout out r)))),
       None)
  end.

(** The [except asyncio.CancelledError] and [except Exception] clauses. *)
Definition handle (x : list Event * CommandResult * option Exn)
  : list Event * CommandResult * option Exn :=
  match x with
  | (evs, r, None) => (evs, r, None)
  | (evs, r, Some CancelledError) =>
      (evs ++ [SetStatus Cancelled], set_status Cancelled r, Some CancelledError)
  | (evs, r, Some (Fault _ m _)) =>
      (evs ++ [SetStatus Failed],
       set_exit_code 1 (set_stderr m (set_status Failed r)), None)
  end.

(** [run_command(command_func, args, callback, priority)] from the moment
    the task holds the lock ([run_command_task] adds a cancellation while
    waiting for it): [has_callback] tells whether a callback is registered,
    [now] is [datetime.now()] at the [finally] clause; [priority] is
    accepted and not used. *)
Definition run_command (c : Command) (args : list str) (has_callback : bool)
    (priority : bool) (now : nat) : list Event * Outcome :=
  let r0 := mkResult (s_ "verdi " ++ command_name c ++ " "%char :: join_space args)
                     [] [] None Running None in
  let '(evs, r, raised) := handle (try_body c r0) in
  let r' := set_end_time now r in
  let evs' := Acquire :: evs ++ [SetEndTime] ++
              (if has_callback then [InvokeCallback] else []) ++ [Release] in
  (evs', match raised with None => Returned r' | Some e => Propagated e r' end).

Definition outcome_result (o : Outcome) : CommandResult :=
  match o with Returned r => r | Propagated _ r => r end.

Definition event_eqb (a b : Event) : bool :=
  match a, b with
  | Acquire, Acquire | SetEndTime, SetEndTime | InvokeCallback, InvokeCallback
  | Release, Release => true
  | SetStatus Running, SetStatus Running | SetStatus Done, SetStatus Done
  | SetStatus Cancelled, SetStatus Cancelled
  | SetStatus Failed, SetStatus Failed => true
  | _, _ => false
  end.

(** Position of the first occurrence of an event in a trace. *)
Fixpoint position (e : Event) (tr : list Event) : option nat :=
  match tr with
  | [] => None
  | x :: xs => if event_eqb e x then Some 0 else option_map S (position e xs)
  end.

Definition is_terminal (s : Status) : bool :=
  match s with Running => false | _ => true end.

End Runner.

(** ** The gate: the class-level [asyncio.Lock] of [CommandRunner]

    [asyncio.Lock] keeps its waiters in a FIFO deque. [release] wakes the
    first waiter; a task arriving meanwhile queues behind it, because the
    woken waiter is still in the deque and not cancelled, so the lock is
    handed over to the head of the queue. *)
Module Gate.

Record Waiter := mkWaiter { wid : nat; wprio : bool }.

Record Lock := mkLock { locked : bool; waiters : list Waiter }.

(** [await lock.acquire()]: [true] when the lock is taken at once. *)
Definition acquire (l : Lock) (w : Waiter) : Lock * bool :=
  if negb (locked l) && is_emptyb (waiters l) then (mkLock true (waiters l), true)
  else (mkLock (locked l) (waiters l ++ [w]), false).

(** [lock.release()]: the waiter that gets the lock next, if any. *)
Definition release (l : Lock) : Lock * option Waiter :=
  match waiters l with
  | [] => (mkLock false [], None)
  | w :: rest => (mkLock true rest, Some w)
  end.

(** [run_command(..., priority=p)] reaches [async with lock]: the priority
    flag is recorded with the waiter but the lock is acquired as is. *)
Definition submit (l : Lock) (id : nat) (priority : bool) : Lock :=
  fst (acquire l (mkWaiter id priority)).

Fixpoint submit_all (l : Lock) (reqs : list (nat * bool)) : Lock :=
  match reqs with
  | [] => l
  | (id, p) :: rs => submit_all (submit l id p) rs
  end.

(** The order in which waiters obtain the lock as each holder releases it. *)
Fixpoint serve_go (fuel : nat) (l : Lock) : list Waiter :=
  match fuel with
  | 0 => []
  | S f => match release l with
           | (l', Some w) => w :: serve_go f l'
           | (_, None) => []
           end
  end.

Definition serve_order (l : Lock) : list Waiter := serve_go (length (waiters l)) l.

(** The ordering the claim asks for: every priority waiter before every
    normal one. *)
Definition priority_first (order : list Waiter) : Prop :=
  forall i j wi wj, nth_error order i = Some wi -> nth_error order j = Some wj ->
  wprio wi = true -> wprio wj = false -> i < j.

End Gate.

(** ** [ui/panels/results_panel.py]: the shared diagnostic sink *)
Module Results.

Record ResultsPanel := mkResults {
  data_table_mounted : bool;
  messages : list str;
  seen_errors : list str
}.

Fixpoint str_eqb (a b : str) : bool :=
  match a, b with
  | [], [] => true
  | x :: a', y :: b' => Ascii.eqb x y && str_eqb a' b'
  | _, _ => false
  end.

(** [str.lower()] on ASCII. *)
Definition lower_char (c : ascii) : ascii :=
  let n := nat_of_ascii c in
  if (65 <=? n) && (n <=? 90) then ascii_of_nat (n + 32) else c.

Definition lower (s : str) : str := map lower_char s.

Definition error_patterns : list str :=
  map s_ ["no aiida profile configured"; "i/o operation on closed file";
          "please run:"; "verdi quicksetup"; "verdi setup"]%string.

Definition is_duplicate_error (seen : list str) (normalized : str) : bool :=
  existsb (fun p => containsb p normalized && existsb (str_eqb p) seen)
          error_patterns.

(** [self._seen_errors.add(pattern)] for every pattern found. *)
Definition set_add (x : str) (xs : list str) : list str :=
  if existsb (str_eqb x) xs then xs else xs ++ [x].

Definition mark_error_seen (seen : list str) (normalized : str) : list str :=
  fold_left (fun acc p => if containsb p normalized then set_add p acc else acc)
            error_patterns seen.

(** [re.match(r"^(Report|Info|Warning|Error|Total|Success|Critical|Debug):", s)] *)
Definition report_prefixes : list str :=
  map s_ ["Report:"; "Info:"; "Warning:"; "Error:"; "Total:"; "Success:";
          "Critical:"; "Debug:"]%string.

Definition command_echo : str := s_ "$ verdi".

(** Whether [_filter_content_lines] keeps a line. *)
Definition keep_content_line (line : str) : bool :=
  let stripped := strip line in
  negb (is_emptyb stripped) && negb (is_sep_line stripped) &&
  negb (startswith_any report_prefixes stripped) &&
  negb (prefixb command_echo stripped).

(** [_filter_content_lines]: kept lines are [line.rstrip()]. *)
Definition filter_content_lines (lines : list str) : list str :=
  map rstrip (filter keep_content_line lines).

(** [ResultsPanel.write(text, dedupe)] *)
Definition write (p : ResultsPanel) (text : str) (dedupe : bool) : ResultsPanel :=
  if negb (data_table_mounted p) then p
  else
    let normalized := lower (strip text) in
    if dedupe && is_duplicate_error (seen_errors p) normalized then p
    else
      let seen := if dedupe then mark_error_seen (seen_errors p) normalized
                  else seen_errors p in
      mkResults true (messages p ++ filter_content_lines (split_nl text)) seen.

(** A panel after [__init__], [compose] ([mounted]) and [on_mount]. *)
Definition welcome : list str :=
  [s_ "LazyVerdi v1.0.0"; s_ "Welcome! Press ? for help"].

Definition mounted_panel (mounted show_welcome : bool) : ResultsPanel :=
  mkResults mounted (if show_welcome && mounted then welcome else []) [].

Fixpoint write_all (p : ResultsPanel) (ws : list (str * bool)) : ResultsPanel :=
  match ws with
  | [] => p
  | (t, d) :: ws' => write_all (write p t d) ws'
  end.

(** A displayed line as the claim describes it. *)
Definition blank (m : str) : bool := forallb is_space m.
Definition only_ws_dash (m : str) : bool :=
  forallb (fun c => is_space c || Ascii.eqb c "-"%char) m.
Definition displayable (m : str) : bool :=
  negb (blank m) && negb (only_ws_dash m) &&
  negb (startswith_any report_prefixes m) && negb (prefixb command_echo m).

End Results.

(** ** [ui/panels/table_panel.py]: per-panel tab state and rendering *)
Module Panel.
Import Parsers.

(** [self._tab_contents]: a dict keyed by tab index, in insertion order. *)
Definition Cache := list (nat * ParsedTable).

Fixpoint cache_get (k : nat) (c : Cache) : option ParsedTable :=
  match c with
  | [] => None
  | (k', v) :: c' => if Nat.eqb k k' then Some v else cache_get k c'
  end.

Fixpoint cache_set (k : nat) (v : ParsedTable) (c : Cache) : Cache :=
  match c with
  | [] => [(k, v)]
  | (k', v') :: c' => if Nat.eqb k k' then (k, v) :: c' else (k', v') :: cache_set k v c'
  end.

Record TablePanel := mkPanel {
  current_tab_index : nat;
  tab_contents : Cache;
  data_table_mounted : bool
}.

(** What the [DataTable] and footer show after [update_content]. *)
Record Rendered := mkRendered {
  columns : list str;
  shown_rows : list (list str);
  shown_footer : str
}.

(** The padding and truncation of one row in [update_content]. *)
Definition render_row (hdrs row : list str) : list str :=
  if length row <? length hdrs then row ++ repeat [] (length hdrs - length row)
  else if length hdrs <? length row then firstn (length hdrs) row
  else row.

(** [update_content(table_data)]: the new panel state and, when the
    [DataTable] exists, what it renders. *)
Definition update_content (p : TablePanel) (td : ParsedTable)
  : TablePanel * option Rendered :=
  let p' := mkPanel (current_tab_index p)
                    (cache_set (current_tab_index p) td (tab_contents p))
                    (data_table_mounted p) in
  if data_table_mounted p then
    (p', Some (mkRendered (headers td) (map (render_row (headers td)) (rows td))
                          (footer td)))
  else (p', None).

End Panel.

(** ** [app.py]: [LazyVerdiApp._refresh_table_panel] *)
Module App.
Import Parsers Runner Panel.

(** A Python call that returns a value or raises an [Exception]
    ([str(e)] kept). *)
Inductive Exc (A : Type) :=
| Ok (a : A)
| Raise (msg : str).
Arguments Ok {A} a.
Arguments Raise {A} msg.

Definition no_output : str := s_ "No output".

(** [f"Error: {str(e)}"] *)
Definition error_message (msg : str) : str := s_ "Error: " ++ msg.

Definition error_table (msg : str) : ParsedTable :=
  mkTable [] [] (error_message msg).

(** The [try] block after [run_command] returned: stdout normalisation,
    formatter and parser. Writing stderr to the results panel is wrapped in
    its own [try] and does not touch the table panel. *)
Definition process (r : CommandResult) (formatter : option (str -> Exc str))
    (parser : option (str -> Exc ParsedTable)) : Exc ParsedTable :=
  let out := if is_emptyb (strip (stdout r)) then no_output else strip (stdout r) in
  match match formatter with None => Ok out | Some f => f out end with
  | Raise e => Raise e
  | Ok out' => match parser with
               | Some prs => prs out'
               | None => Ok (mkTable [] [] out')
               end
  end.

(** [_refresh_table_panel] given what [run_command] did; the panel is the
    one [query_one] finds. A propagated [CancelledError] is re-raised. *)
Definition refresh_table_panel (p : TablePanel) (run : Outcome)
    (formatter : option (str -> Exc str)) (parser : option (str -> Exc ParsedTable))
  : TablePanel * option Exn :=
  match run with
  | Propagated CancelledError _ => (p, Some CancelledError)
  | Propagated (Fault _ m _) _ => (fst (update_content p (error_table m)), None)
  | Returned r =>
      match process r formatter parser with
      | Ok td => (fst (update_content p td), None)
      | Raise e => (fst (update_content p (error_table e)), None)
      end
  end.

(** The parser callable [parse_table] (total). *)
Definition parse_table_callable : option (str -> Exc ParsedTable) :=
  Some (fun t => Ok (parse_table t)).

End App.

(** ** The rest of [commands/parsers.py] *)
Module Parsers2.
Import Parsers.

(** Prefixes skipped by [parse_plugin_list]. *)
Definition plugin_skipped : list str :=
  map s_ ["Registered entry points"; "Report:"; "Info:"; "Warning:"; "Error:";
          "Success:"; "Critical:"; "Debug:"]%string.

Definition plugin_row (line : str) : option (list str) :=
  let stripped := strip line in
  if is_emptyb stripped || startswith_any plugin_skipped stripped then None
  else if prefixb bullet stripped then Some [strip (skipn 2 stripped)]
  else if negb (is_emptyb stripped) then Some [stripped]
  else None.

Definition parse_plugin_list (text : str) : ParsedTable :=
  mkTable [s_ "entry point"] (collect_rows plugin_row (splitlines (strip text))) [].

(** [parse_process_list], [parse_code_list], [parse_group_list] and
    [parse_node_list] are [parse_table]. *)
Definition parse_process_list := parse_table.
Definition parse_code_list := parse_table.
Definition parse_group_list := parse_table.
Definition parse_node_list := parse_table.

Definition two_spaces : str := s_ "  ".
Definition dash : str := s_ "-".
Definition commands_header : str := s_ "Commands:".

(** The loop of [parse_calcjob_help]; [[]] at a [break]. *)
Fixpoint calcjob_rows (lines : list str) (in_commands : bool) : list (list str) :=
  match lines with
  | [] => []
  | line :: rest =>
      let stripped := strip line in
      if prefixb commands_header stripped then calcjob_rows rest true
      else if in_commands && (negb (prefixb two_spaces line) || prefixb dash stripped)
      then []
      else if in_commands && prefixb two_spaces line && negb (prefixb dash stripped) then
        match split_cells (strip line) with
        | p0 :: p1 :: _ => [p0; p1] :: calcjob_rows rest in_commands
        | [p0] => [p0; []] :: calcjob_rows rest in_commands
        | [] => calcjob_rows rest in_commands
        end
      else calcjob_rows rest in_commands
  end.

Definition parse_calcjob_help (text : str) : ParsedTable :=
  mkTable [s_ "command"; s_ "description"]
          (calcjob_rows (splitlines (strip text)) false) [].

End Parsers2.

(** ** [commands/formatters.py] and [commands/base.py:format_error_message] *)
Module Formatters.

Definition verdi_echo : str := s_ "$ verdi".

(** [strip_command_echo]: drop the last line if it is a command echo. *)
Definition strip_command_echo (text : str) : str :=
  let lines := splitlines text in
  match lines with
  | [] => text
  | _ => if prefixb verdi_echo (strip (last lines [])) then join_nl (removelast lines)
         else text
  end.

Definition blank_line (l : str) : bool := is_emptyb (strip l).

(** [while lines and not lines[-1].strip(): lines.pop()], on the reversed
    list. *)
Fixpoint drop_blank_front (rl : list str) : list str :=
  match rl with
  | [] => []
  | l :: rl' => if blank_line l then drop_blank_front rl' else rl
  end.

Definition pop_trailing_blank (lines : list str) : list str :=
  rev (drop_blank_front (rev lines)).

Definition format_process_list (text : str) : str :=
  join_nl (pop_trailing_blank (splitlines (strip_command_echo text))).

Definition format_table_output (text : str) : str :=
  join_nl (pop_trailing_blank (splitlines (strip_command_echo text))).

Definition format_daemon_status (text : str) : str := strip (strip_command_echo text).
Definition format_storage_info (text : str) : str := strip (strip_command_echo text).
Definition format_config_list (text : str) : str := strip (strip_command_echo text).
Definition format_profile_list (text : str) : str := strip (strip_command_echo text).

Definition no_format (text : str) : str := text.

Definition profile_message : str :=
  s_ "No AiiDA profile configured." ++ [LF; LF] ++
  s_ "Please run:" ++ [LF] ++
  s_ "  verdi quicksetup  (for quick setup)" ++ [LF] ++
  s_ "  verdi setup       (for detailed setup)".

Definition computer_message : str :=
  s_ "No computers configured." ++ [LF; LF] ++
  s_ "Use 'verdi computer setup' to add computers.".

Definition process_message : str :=
  s_ "No processes found." ++ [LF; LF] ++
  s_ "Submit calculations to see them here.".

(** [format_error_message(cmd_name, error)] *)
Definition format_error_message (cmd_name err : str) : str :=
  if containsb (s_ "profile") (Results.lower cmd_name) ||
     containsb (s_ "profile") (Results.lower err) then profile_message
  else if containsb (s_ "computer") (Results.lower cmd_name) && containsb (s_ "No") err
  then computer_message
  else if containsb (s_ "process") (Results.lower cmd_name) && containsb (s_ "No") err
  then process_message
  else if is_emptyb err then s_ "Command failed" else err.

End Formatters.

(** ** Visual selection and copy in [ResultsPanel] *)
Module Selection.

(** [_selection_mode], [_selection_start] and [_selected_rows]; the set of
    row indices is kept as the sorted list [sorted(self._selected_rows)]. *)
Record Selection := mkSel {
  sel_mode : bool;
  sel_start : option nat;
  selected : list nat
}.

(** [_update_selection_from_cursor] ([cursor] is [DataTable.cursor_row]). *)
Definition update_selection (mounted : bool) (s : Selection) (cursor : Z) : Selection :=
  if negb mounted || negb (sel_mode s) then s
  else match sel_start s with
       | None => s
       | Some st =>
           if Z.ltb cursor 0 then s
           else let c := Z.to_nat cursor in
                let lo := Nat.min st c in
                let hi := Nat.max st c in
                mkSel (sel_mode s) (sel_start s) (seq lo (hi + 1 - lo))
       end.

(** [_toggle_selection_mode] *)
Definition toggle_selection (mounted : bool) (s : Selection) (cursor : Z) : Selection :=
  if negb mounted then s
  else if negb (sel_mode s) then
    if Z.leb 0 cursor then mkSel true (Some (Z.to_nat cursor)) [Z.to_nat cursor]
    else mkSel true (sel_start s) (selected s)
  else mkSel false None [].

(** [[self._messages[i] for i in sorted(self._selected_rows) if 0 <= i < len]] *)
Fixpoint pick (msgs : list str) (idx : list nat) : list str :=
  match idx with
  | [] => []
  | i :: is => match nth_error msgs i with
               | Some m => m :: pick msgs is
               | None => pick msgs is
               end
  end.

(** [_copy_selected_rows]: the text put on the clipboard, if any. *)
Definition copy_selected_rows (mounted : bool) (msgs : list str) (s : Selection)
  : option str :=
  if negb mounted || is_emptyb (selected s) then None
  else match pick msgs (selected s) with
       | [] => None
       | sm => Some (join_nl sm)
       end.

End Selection.

(** ** Tab navigation of [TablePanel] *)
Module Tabs.
Import Parsers Panel.

(** What the panel shows after a tab switch: the cached table re-rendered
    through [update_content], or the table cleared with ["Loading..."]. *)
Inductive TabView :=
| Restored (r : option Rendered)
| LoadingShown.

Definition show_tab (p : TablePanel) : TablePanel * TabView :=
  match cache_get (current_tab_index p) (tab_contents p) with
  | Some td => let '(p', r) := update_content p td in (p', Restored r)
  | None => (p, LoadingShown)
  end.

Definition set_index (i : nat) (p : TablePanel) : TablePanel :=
  mkPanel i (tab_contents p) (data_table_mounted p).

(** [next_tab()] for a panel with [ntabs] tabs
    ([self._current_tab_index < len(self._tabs) - 1]). *)
Definition next_tab (ntabs : nat) (p : TablePanel) : bool * TablePanel * option TabView :=
  if Z.ltb (Z.of_nat (current_tab_index p)) (Z.of_nat ntabs - 1) then
    let '(p', v) := show_tab (set_index (S (current_tab_index p)) p) in (true, p', Some v)
  else (false, p, None).

(** [prev_tab()] *)
Definition prev_tab (p : TablePanel) : bool * TablePanel * option TabView :=
  if 0 <? current_tab_index p then
    let '(p', v) := show_tab (set_index (pred (current_tab_index p)) p) in (true, p', Some v)
  else (false, p, None).

(** [get_current_tab_command()]: [None] stands for [ValueError]. *)
Definition get_current_tab {T : Type} (tabs : list T) (p : TablePanel) : option T :=
  match tabs with
  | [] => None
  | _ => nth_error tabs (current_tab_index p)
  end.

End Tabs.

(** ** More of [app.py] and [core/batch_loader.py] *)
Module App2.
Import Parsers Runner Panel App Formatters.

(** [_run_command_in_batch(command_func, args)]: a plain function's fault
    and a fault raised by [CliRunner.invoke] become [("", str(e), 1)]; a
    [CancelledError] (a [BaseException]) is not caught. *)
Inductive BatchOut :=
| BOk (out err : str) (code : Z)
| BRaise (e : Exn).

Definition run_command_in_batch (c : Command) : BatchOut :=
  match c with
  | PlainFunction _ (PReturns o) => BOk (match o with Some x => x | None => [] end) [] 0
  | PlainFunction _ (PRaises (Fault _ m _)) => BOk [] m 1
  | PlainFunction _ (PRaises CancelledError) => BRaise CancelledError
  | ClickCommand _ (CFinishes out err code _) => BOk out err code
  | ClickCommand _ (CRaises (Fault _ m _)) => BOk [] m 1
  | ClickCommand _ (CRaises CancelledError) => BRaise CancelledError
  end.

(** [load_tab_data(panel_id, tab_name, command_func, args)] *)
Definition load_tab_data (c : Command) : BatchOut :=
  match run_command_in_batch c with
  | BRaise (Fault _ m _) => BOk [] m 1
  | o => o
  end.

(** The stdout handling shared by the lazy and startup loads. *)
Definition lazy_process (out : str) (formatter : option (str -> Exc str))
    (parser : option (str -> Exc ParsedTable)) : Exc ParsedTable :=
  let so := if is_emptyb (strip out) then no_output else strip out in
  match match formatter with None => Ok so | Some f => f so end with
  | Raise e => Raise e
  | Ok so' => match parser with
              | Some prs => prs so'
              | None => Ok (mkTable [] [] so')
              end
  end.

(** Writing a command's stderr to the results panel: skipped when blank or
    when it reports a missing configuration file. *)
Definition route_stderr (rp : Results.ResultsPanel) (cmd_name err : str)
  : Results.ResultsPanel :=
  let s := strip err in
  if is_emptyb s then rp
  else if containsb (s_ "configuration file") (Results.lower s) &&
          containsb (s_ "does not exist") (Results.lower s) then rp
  else Results.write rp (format_error_message cmd_name s) true.

(** [self._loaded_tabs]: a set of [(panel_id, tab_name)]. *)
Definition Loaded := list (str * str).

Definition key_eqb (a b : str * str) : bool :=
  Results.str_eqb (fst a) (fst b) && Results.str_eqb (snd a) (snd b).

Definition loaded_mem (k : str * str) (l : Loaded) : bool := existsb (key_eqb k) l.

Definition loaded_add (k : str * str) (l : Loaded) : Loaded :=
  if loaded_mem k l then l else l ++ [k].

(** The state [_refresh_table_panel_lazy] touches. *)
Record LazyState := mkLazy {
  lz_panel : TablePanel;
  lz_results : Results.ResultsPanel;
  lz_loaded : Loaded
}.

(** [_refresh_table_panel_lazy(panel_id, tab_name, command_func, ...)];
    [Propagated CancelledError] of the worker is re-raised ([None]). *)
Definition refresh_table_panel_lazy (s : LazyState) (panel_id tab_name : str)
    (c : Command) (formatter : option (str -> Exc str))
    (parser : option (str -> Exc ParsedTable)) : option LazyState :=
  let fail e := mkLazy (fst (update_content (lz_panel s) (error_table e)))
                       (Results.write (lz_results s) (error_message e) true)
                       (lz_loaded s) in
  match load_tab_data c with
  | BRaise CancelledError => None
  | BRaise (Fault _ m _) => Some (fail m)
  | BOk out err _ =>
      match lazy_process out formatter parser with
      | Raise e => Some (fail e)
      | Ok td =>
          Some (mkLazy (fst (update_content (lz_panel s) td))
                       (route_stderr (lz_results s) (command_name c) err)
                       (loaded_add (panel_id, tab_name) (lz_loaded s)))
      end
  end.

(** The tab name [_load_current_tab_lazy] looks up. *)
Definition current_tab_name (names : list str) (p : TablePanel) : str :=
  match names with
  | [] => []
  | _ => if current_tab_index p <? length names
         then nth (current_tab_index p) names [] else []
  end.

(** Whether [_load_current_tab_lazy] starts a load for the focused panel. *)
Definition lazy_load_needed (l : Loaded) (panel_id : str) (names : list str)
    (p : TablePanel) : bool :=
  negb (loaded_mem (panel_id, current_tab_name names p) l).

(** The panels of one auto-refresh pass. *)
Definition all_panels : list str :=
  map s_ ["panel-1"; "panel-2"; "panel-3"; "panel-4"; "panel-5"]%string.

Definition str_mem (x : str) (xs : list str) : bool := existsb (Results.str_eqb x) xs.

(** [list.remove(x)]: drop the first occurrence. *)
Fixpoint remove_first (x : str) (xs : list str) : list str :=
  match xs with
  | [] => []
  | y :: ys => if Results.str_eqb x y then ys else y :: remove_first x ys
  end.

(** The reordering in [_auto_refresh_loop]: the focused panel first. *)
Definition refresh_order (focused : option str) : list str :=
  match focused with
  | Some f => if negb (is_emptyb f) && str_mem f all_panels
              then f :: remove_first f all_panels else all_panels
  | None => all_panels
  end.

(** How one panel's refresh in the pass ends. *)
Inductive PanelOutcome := PanelOk | PanelFault | PanelCancelled.

(** The [for panel_id in all_panels] loop: a fault is skipped
    ([except Exception: continue]); a cancellation leaves the loop and the
    task. Returns the panels whose refresh was started and whether the task
    was cancelled. *)
Fixpoint refresh_pass (order : list str) (outcome : str -> PanelOutcome)
  : list str * bool :=
  match order with
  | [] => ([], false)
  | p :: ps =>
      match outcome p with
      | PanelCancelled => ([p], true)
      | _ => let '(done_, cancelled) := refresh_pass ps outcome in (p :: done_, cancelled)
      end
  end.

End App2.

(** ** [CommandResult.success] and a run of the gate *)
Module Runner2.
Import Runner.

Definition status_eqb (a b : Status) : bool :=
  match a, b with
  | Running, Running | Done, Done | Cancelled, Cancelled | Failed, Failed => true
  | _, _ => false
  end.


(** [self.exit_code == 0 and self.status == "done"] *)
Definition success (r : CommandResult) : bool :=
  match exit_code r with Some z => Z.eqb z 0 | None => false end &&
  status_eqb (status r) Done.

End Runner2.

Module Gate2.
Import Gate.

(** A task calling [run_command] (reaching [async with lock]), or the
    current holder leaving the [async with] block. *)
Inductive GateOp :=
| Enter (id : nat) (priority : bool)
| Leave.

(** The lock and the tasks inside the [async with lock] block. *)
Definition step (st : Lock * list Waiter) (op : GateOp) : Lock * list Waiter :=
  let '(l, holders) := st in
  match op with
  | Enter id p =>
      let w := mkWaiter id p in
      let '(l', granted) := acquire l w in
      (l', if granted then holders ++ [w] else holders)
  | Leave =>
      match holders with
      | [] => (l, holders)
      | _ :: _ => let '(l', next) := release l in
                  (l', match next with Some w => [w] | None => [] end)
      end
  end.

Definition run_ops (ops : list GateOp) : Lock * list Waiter :=
  fold_left step ops (mkLock false [], []).

End Gate2.

(** ** The statements of the spec used to test the claims against *)
Module SpecClaims.
Import Parsers.

(** The table of the spec's scenario (section 8). *)
Definition scenario : str :=
  s_ "Full label      Pk  Entry point" ++ [LF] ++
  s_ "------------  ----  -------------------" ++ [LF] ++
  s_ "dspaw@nm         1  core.code.installed" ++ [LF; LF] ++
  s_ "Report: see docs".

(** C3 as the spec writes it: no separator line means an all-footer table
    whose footer is the trimmed input. *)
Definition no_separator_claim (text : str) : Prop :=
  forallb (fun l => negb (is_sep_line l)) (splitlines text) = true ->
  parse_table text = mkTable [] [] (strip text).

(** C6 as the spec orders the steps: the gate is released, then the end
    time is set, then the callback runs. *)
Definition released_first (tr : list Runner.Event) : Prop :=
  match Runner.position Runner.Release tr, Runner.position Runner.SetEndTime tr, Runner.position Runner.InvokeCallback tr with
  | Some a, Some b, Some c => a < b /\ b < c
  | _, _, _ => False
  end.

End SpecClaims.

Module ParserTests.
Import Parsers SpecClaims.

Example scenario_parse :
  parse_table scenario =
  mkTable [s_ "Full label"; s_ "Pk"; s_ "Entry point"]
          [[s_ "dspaw@nm"; s_ "1"; s_ "core.code.installed"]] [].
Proof. vm_compute. reflexivity. Qed.

Example bullets_parse :
  parse_computer_list (s_ "* localhost" ++ [LF] ++ s_ "* nm" ++ [LF]) =
  mkTable [s_ "label"] [[s_ "localhost"]; [s_ "nm"]] [].
Proof. vm_compute. reflexivity. Qed.

Example splitlines_crlf :
  splitlines (s_ "a" ++ [CR; LF] ++ s_ "b" ++ [LF; LF]) = [s_ "a"; s_ "b"; []].
Proof. vm_compute. reflexivity. Qed.

End ParserTests.

(** * Properties *)

(** ** String helpers *)
Module StringFacts.

Lemma lstrip_all_space (s : str) : forallb is_space s = true -> lstrip s = [].
Proof.
  induction s as [|c s IH]; simpl; [reflexivity|].
  intros H; apply andb_true_iff in H as [Hc Hs]; rewrite Hc; auto.
Qed.

Lemma strip_all_space (s : str) : forallb is_space s = true -> strip s = [].
Proof.
  intros H; unfold strip, rstrip.
  rewrite (lstrip_all_space (rev s)); [reflexivity|].
  apply forallb_forall; intros x Hx; apply in_rev in Hx.
  exact (proj1 (forallb_forall _ _) H x Hx).
Qed.

(** [lstrip s] is a suffix of [s] behind a run of whitespace. *)
Lemma lstrip_suffix (s : str) :
  exists pre, s = pre ++ lstrip s /\ forallb is_space pre = true.
Proof.
  induction s as [|c s [pre [Hs Hp]]]; simpl.
  - exists []; auto.
  - destruct (is_space c) eqn:Hc.
    + exists (c :: pre); simpl; rewrite Hc, <- Hs; auto.
    + exists []; auto.
Qed.

Lemma forallb_lstrip (f : ascii -> bool) (s : str) :
  forallb f s = true -> forallb f (lstrip s) = true.
Proof.
  intros H; destruct (lstrip_suffix s) as [pre [Hs _]].
  rewrite Hs, forallb_app in H; apply andb_true_iff in H; tauto.
Qed.

(** A string starting with a non-space prefix is its own [lstrip]. *)
Lemma lstrip_prefixed (p m : str) :
  match p with a :: _ => is_space a = false | [] => False end ->
  prefixb p m = true -> lstrip m = m.
Proof.
  destruct p as [|a p]; [contradiction|]; intros Ha.
  destruct m as [|b m]; simpl; [discriminate|].
  intros H; apply andb_true_iff in H as [Hab _].
  apply Ascii.eqb_eq in Hab; subst b; rewrite Ha; reflexivity.
Qed.

Definition nonspace_heads (ps : list str) : bool :=
  forallb (fun p => match p with a :: _ => negb (is_space a) | [] => false end) ps.

Lemma lstrip_startswith (ps : list str) (m : str) :
  nonspace_heads ps = true -> startswith_any ps m = true -> lstrip m = m.
Proof.
  intros Hps H; unfold startswith_any in H; apply existsb_exists in H as [p [Hin Hp]].
  apply (lstrip_prefixed p); [|exact Hp].
  pose proof (proj1 (forallb_forall _ _) Hps p Hin) as Hh; simpl in Hh.
  destruct p as [|a p]; [discriminate|]; apply negb_true_iff; exact Hh.
Qed.

End StringFacts.

(** ** Table parser *)
Module ParserFacts.
Import Parsers StringFacts.

Lemma find_separator_none (lines : list str) :
  forallb (fun l => negb (is_sep_line l)) lines = true -> find_separator lines = None.
Proof.
  induction lines as [|l ls IH]; simpl; [reflexivity|].
  intros H; apply andb_true_iff in H as [Hl Hls].
  apply negb_true_iff in Hl; rewrite Hl, IH; auto.
Qed.

Lemma run_loop_app (xs ys : list str) (st : LoopState) :
  run_loop (xs ++ ys) st = run_loop ys (run_loop xs st).
Proof. unfold run_loop; apply fold_left_app. Qed.

(** Once in footer mode, the loop only appends kept footer lines. *)
Lemma run_loop_in_footer (lines : list str) (st : LoopState) :
  in_footer st = true ->
  run_loop lines st =
  mkLoop (ls_rows st) (ls_footer_lines st ++ filter keep_footer_line (map strip lines)) true.
Proof.
  revert st; induction lines as [|l ls IH]; intros st Hf.
  - destruct st; simpl in *; subst; rewrite app_nil_r; reflexivity.
  - simpl; unfold run_loop in *; simpl.
    unfold loop_step at 2; rewrite Hf; simpl.
    rewrite IH by reflexivity; simpl.
    destruct (keep_footer_line (strip l)); simpl; rewrite <- ?app_assoc; reflexivity.
Qed.

(** Before the first footer trigger, no footer line is collected. *)
Lemma run_loop_before_footer (lines : list str) (st : LoopState) :
  in_footer st = false ->
  forallb (fun x => negb (triggers_footer (strip x))) lines = true ->
  in_footer (run_loop lines st) = false /\
  ls_footer_lines (run_loop lines st) = ls_footer_lines st.
Proof.
  revert st; induction lines as [|l ls IH]; intros st Hf Hall; [auto|].
  simpl in Hall; apply andb_true_iff in Hall as [Hl Hls]; apply negb_true_iff in Hl.
  change (run_loop (l :: ls) st) with (run_loop ls (loop_step st l)).
  assert (Hst : loop_step st l =
    mkLoop (if is_emptyb (split_cells l) then ls_rows st else ls_rows st ++ [split_cells l])
           (ls_footer_lines st) false)
    by (unfold loop_step; rewrite Hf, Hl; reflexivity).
  rewrite Hst.
  match goal with |- context [run_loop ls ?s] =>
    destruct (IH s eq_refl Hls) as [H1 H2] end.
  split; [exact H1|]; rewrite H2; reflexivity.
Qed.

Lemma parse_table_sep (text : str) (i : nat) :
  find_separator (splitlines (strip text)) = Some i ->
  let st := run_loop (skipn (S i) (splitlines (strip text))) loop_init in
  rows (parse_table text) = ls_rows st /\
  footer (parse_table text) = join_nl (ls_footer_lines st).
Proof.
  unfold parse_table; destruct (splitlines (strip text)) as [|l ls]; simpl;
    [discriminate|].
  intros H; rewrite H; destruct i; simpl; auto.
Qed.

End ParserFacts.

Module ParserClaims.
Import Parsers StringFacts ParserFacts SpecClaims.

(** C3 (corrected). When the trimmed input has lines and none of them is a
    separator line, [parse_table] returns empty headers and rows and the
    input string itself, untrimmed, as footer. *)
Theorem parse_table_no_separator (text : str) :
  splitlines (strip text) <> [] ->
  forallb (fun l => negb (is_sep_line l)) (splitlines (strip text)) = true ->
  parse_table text = mkTable [] [] text.
Proof.
  intros Hne Hall; unfold parse_table.
  destruct (splitlines (strip text)) as [|l ls] eqn:E; [contradiction|].
  rewrite find_separator_none by exact Hall; reflexivity.
Qed.

Lemma parse_table_no_separator_witness :
  parse_table (s_ " abc  def") = mkTable [] [] (s_ " abc  def").
Proof.
  apply parse_table_no_separator; vm_compute; [discriminate | reflexivity].
Defined.

(** C3 counterexample: the input [" abc"] has no separator line, and the
    footer is [" abc"], not the trimmed ["abc"]. *)
Lemma parse_table_no_separator_untrimmed :
  ~ no_separator_claim (s_ " abc").
Proof.
  unfold no_separator_claim; intros H.
  specialize (H eq_refl); vm_compute in H; discriminate H.
Qed.

(** C4 (corrected). Let [l] be the first line after the separator that
    triggers footer mode. The rows are those of the lines before [l] only,
    and the footer is the newline-join of the footer-mode lines [l :: post],
    trimmed, with the blank ones and those starting with [Report:], [Info:],
    [Warning:], [Error:], [Debug:] or [Critical:] left out: these kept lines
    are non-blank, none starts with one of those prefixes, and every trimmed
    footer-mode line starting with [Total] is among them. *)
Theorem parse_table_footer_mode (text : str) (i : nat) (pre : list str)
    (l : str) (post : list str) :
  find_separator (splitlines (strip text)) = Some i ->
  skipn (S i) (splitlines (strip text)) = pre ++ l :: post ->
  forallb (fun x => negb (triggers_footer (strip x))) pre = true ->
  triggers_footer (strip l) = true ->
  rows (parse_table text) = ls_rows (run_loop pre loop_init) /\
  footer (parse_table text) = join_nl (filter keep_footer_line (map strip (l :: post))) /\
  Forall (fun s => s <> [] /\ startswith_any footer_filtered s = false)
    (filter keep_footer_line (map strip (l :: post))) /\
  (forall x, In x (l :: post) -> prefixb (s_ "Total") (strip x) = true ->
             In (strip x) (filter keep_footer_line (map strip (l :: post)))).
Proof.
  intros Hsep Hsplit Hpre Hl.
  destruct (parse_table_sep text i Hsep) as [Hrows Hfoot]; cbv zeta in Hrows, Hfoot.
  rewrite Hsplit, run_loop_app in Hrows, Hfoot.
  destruct (run_loop_before_footer pre loop_init eq_refl Hpre) as [Hin Hfl].
  set (st := run_loop pre loop_init) in *.
  assert (Hst : run_loop (l :: post) st =
                run_loop post (mkLoop (ls_rows st)
                  (if keep_footer_line (strip l) then [strip l] else []) true)).
  { change (run_loop (l :: post) st) with (run_loop post (loop_step st l)).
    unfold loop_step; rewrite Hin, Hl, Hfl; reflexivity. }
  rewrite Hst, run_loop_in_footer in Hrows, Hfoot by reflexivity; simpl in Hrows, Hfoot.
  split; [exact Hrows|].
  assert (Hfl' : filter keep_footer_line (map strip (l :: post)) =
                 (if keep_footer_line (strip l) then [strip l] else []) ++
                 filter keep_footer_line (map strip post))
    by (simpl; destruct (keep_footer_line (strip l)); reflexivity).
  rewrite Hfl'.
  split; [exact Hfoot|].
  assert (Hkeep : forall s, keep_footer_line s = true ->
                    s <> [] /\ startswith_any footer_filtered s = false).
  { intros s Hs; unfold keep_footer_line in Hs; apply andb_true_iff in Hs as [H1 H2].
    apply negb_true_iff in H1, H2; split; [destruct s; discriminate|exact H2]. }
  assert (Htot : forall s, prefixb (s_ "Total") s = true -> keep_footer_line s = true).
  { intros s Hs; destruct s as [|c s]; [discriminate|].
    change (Ascii.eqb "T"%char c && prefixb (s_ "otal") s = true) in Hs.
    apply andb_true_iff in Hs as [Hc _]; apply Ascii.eqb_eq in Hc; subst c.
    reflexivity. }
  split.
  - apply Forall_app; split.
    + destruct (keep_footer_line (strip l)) eqn:E; constructor; auto.
    + apply Forall_forall; intros s Hs; apply filter_In in Hs; apply Hkeep; tauto.
  - intros x [<-|Hx] Hx'; apply in_or_app.
    + left; rewrite (Htot _ Hx'); left; reflexivity.
    + right; apply filter_In; split; [apply in_map; exact Hx | apply Htot; exact Hx'].
Qed.

Lemma parse_table_footer_mode_witness :
  rows (parse_table (s_ "A  B" ++ [LF] ++ s_ "----  ----" ++ [LF] ++ s_ "x  y" ++ [LF] ++ s_ "Total results: 3")) = ls_rows (run_loop [s_ "x  y"] loop_init) /\
  footer (parse_table (s_ "A  B" ++ [LF] ++ s_ "----  ----" ++ [LF] ++ s_ "x  y" ++ [LF] ++ s_ "Total results: 3")) = join_nl (filter keep_footer_line (map strip [s_ "Total results: 3"])) /\
  Forall (fun s => s <> [] /\ startswith_any footer_filtered s = false)
    (filter keep_footer_line (map strip [s_ "Total results: 3"])) /\
  (forall x, In x [s_ "Total results: 3"] -> prefixb (s_ "Total") (strip x) = true ->
     In (strip x) (filter keep_footer_line (map strip [s_ "Total results: 3"]))).
Proof.
  apply (parse_table_footer_mode (s_ "A  B" ++ [LF] ++ s_ "----  ----" ++ [LF] ++ s_ "x  y" ++ [LF] ++ s_ "Total results: 3") 1 [s_ "x  y"] (s_ "Total results: 3") []);
    vm_compute; reflexivity.
Defined.

(** C4 counterexample: in the table below the line ["Total results: 3"]
    triggers footer mode and starts with the report prefix [Total], yet it
    is the returned footer. *)
Lemma parse_table_total_in_footer :
  let t := s_ "A  B" ++ [LF] ++ s_ "----  ----" ++ [LF] ++ s_ "x  y" ++ [LF] ++
           s_ "Total results: 3" in
  triggers_footer (s_ "Total results: 3") = true /\
  prefixb (s_ "Total") (s_ "Total results: 3") = true /\
  rows (parse_table t) = [[s_ "x"; s_ "y"]] /\
  footer (parse_table t) = s_ "Total results: 3".
Proof. vm_compute; repeat split. Qed.

(** C8. An input made only of whitespace (or empty) gives the empty
    table: empty headers, rows and footer. *)
Theorem parse_table_whitespace_only (text : str) :
  forallb is_space text = true -> parse_table text = mkTable [] [] [].
Proof.
  intros H; unfold parse_table; rewrite strip_all_space by exact H; reflexivity.
Qed.

Lemma parse_table_whitespace_only_witness :
  parse_table [" "%char; LF; ascii_of_nat 9] = mkTable [] [] [].
Proof. apply parse_table_whitespace_only; vm_compute; reflexivity. Defined.

Lemma computer_row_single (line : str) (r : list str) :
  computer_row line = Some r -> length r = 1.
Proof.
  unfold computer_row.
  destruct (is_emptyb (strip line) || startswith_any computer_skipped (strip line));
    [discriminate|].
  destruct (prefixb bullet (strip line)); [intros [= <-]; reflexivity|].
  destruct (negb (is_emptyb (strip line))); [intros [= <-]; reflexivity|discriminate].
Qed.

Lemma collect_rows_forall (f : str -> option (list str)) (P : list str -> Prop)
    (lines : list str) :
  (forall l r, f l = Some r -> P r) -> Forall P (collect_rows f lines).
Proof.
  intros Hf; induction lines as [|l ls IH]; simpl; [constructor|].
  destruct (f l) eqn:E; [constructor; eauto|exact IH].
Qed.

Lemma collect_rows_in (f : str -> option (list str)) (lines : list str) l r :
  In l lines -> f l = Some r -> In r (collect_rows f lines).
Proof.
  induction lines as [|l' ls IH]; simpl; [tauto|].
  intros [<-|Hin] Hf.
  - rewrite Hf; left; reflexivity.
  - destruct (f l'); [right|]; auto.
Qed.

(** C9. Every row of [parse_computer_list] has one cell, its footer is
    empty, and a non-blank line that is neither report-prefixed nor starts
    with ["* "] is kept as the row [[stripped line]]. *)
Theorem parse_computer_list_rows (text : str) :
  Forall (fun r => length r = 1) (rows (parse_computer_list text)) /\
  footer (parse_computer_list text) = [] /\
  (forall line, In line (splitlines (strip text)) ->
     strip line <> [] ->
     startswith_any computer_skipped (strip line) = false ->
     prefixb bullet (strip line) = false ->
     In [strip line] (rows (parse_computer_list text))).
Proof.
  split; [|split; [reflexivity|]].
  - apply collect_rows_forall, computer_row_single.
  - intros line Hin Hne Hskip Hb; unfold parse_computer_list; cbn [rows].
    apply (collect_rows_in _ _ line); [exact Hin|].
    unfold computer_row; rewrite Hskip, Hb.
    destruct (strip line); [contradiction|reflexivity].
Qed.

Lemma parse_computer_list_rows_witness :
  In [s_ "nm"] (rows (parse_computer_list (s_ "* localhost" ++ [LF] ++ s_ "nm"))).
Proof.
  pose proof (proj2 (proj2 (parse_computer_list_rows (s_ "* localhost" ++ [LF] ++ s_ "nm")))
                (s_ "nm")) as H.
  change (strip (s_ "nm")) with (s_ "nm") in H.
  apply H; [vm_compute; auto | discriminate | reflexivity | reflexivity].
Defined.

End ParserClaims.

(** ** The diagnostic sink *)
Module ResultsClaims.
Import Results StringFacts.

Lemma report_heads : nonspace_heads report_prefixes = true.
Proof. vm_compute; reflexivity. Qed.

Lemma echo_heads : nonspace_heads [command_echo] = true.
Proof. vm_compute; reflexivity. Qed.

(** A line kept by [_filter_content_lines] is displayable. *)
Lemma kept_line_displayable (line : str) :
  keep_content_line line = true -> displayable (rstrip line) = true.
Proof.
  unfold keep_content_line, strip; set (m := rstrip line); intros H.
  apply andb_true_iff in H as [H Hecho]; apply andb_true_iff in H as [H Hrep];
    apply andb_true_iff in H as [Hne Hsep].
  apply negb_true_iff in Hne, Hsep, Hrep, Hecho.
  unfold displayable.
  destruct (only_ws_dash m) eqn:Hd.
  { exfalso; apply forallb_lstrip in Hd.
    unfold is_sep_line in Hsep; rewrite Hne in Hsep; simpl in Hsep.
    unfold only_ws_dash in Hd; congruence. }
  destruct (blank m) eqn:Hb.
  { exfalso; apply lstrip_all_space in Hb; rewrite Hb in Hne; discriminate. }
  destruct (startswith_any report_prefixes m) eqn:Hr.
  { exfalso; rewrite (lstrip_startswith _ _ report_heads Hr) in Hrep; congruence. }
  destruct (prefixb command_echo m) eqn:He; [|reflexivity].
  exfalso.
  assert (Hs : startswith_any [command_echo] m = true)
    by (unfold startswith_any; cbn [existsb]; rewrite He; reflexivity).
  rewrite (lstrip_startswith _ _ echo_heads Hs) in Hecho; congruence.
Qed.

Lemma filter_content_lines_displayable (lines : list str) :
  Forall (fun m => displayable m = true) (filter_content_lines lines).
Proof.
  apply Forall_forall; intros m Hm; unfold filter_content_lines in Hm.
  apply in_map_iff in Hm as [line [<- Hl]]; apply filter_In in Hl.
  apply kept_line_displayable; tauto.
Qed.

Lemma write_displayable (p : ResultsPanel) (text : str) (dedupe : bool) :
  Forall (fun m => displayable m = true) (messages p) ->
  Forall (fun m => displayable m = true) (messages (write p text dedupe)).
Proof.
  intros H; unfold write.
  destruct (negb (data_table_mounted p)); [exact H|].
  destruct (dedupe && is_duplicate_error (seen_errors p) (lower (strip text)));
    [exact H|].
  simpl; apply Forall_app; split; [exact H|apply filter_content_lines_displayable].
Qed.

(** C10. Whatever is written to the results panel, with or without
    deduplication, starting from a freshly mounted panel (with or without
    the welcome lines), the message list holds no blank line, no line made
    only of whitespace and dashes, no line starting with a report prefix
    and no line starting with ["$ verdi"]. *)
Theorem results_messages_displayable (mounted show_welcome : bool)
    (writes : list (str * bool)) :
  Forall (fun m => displayable m = true)
         (messages (write_all (mounted_panel mounted show_welcome) writes)).
Proof.
  assert (H0 : Forall (fun m => displayable m = true)
                      (messages (mounted_panel mounted show_welcome))).
  { unfold mounted_panel; simpl.
    destruct (show_welcome && mounted); [|constructor].
    repeat constructor. }
  revert H0; generalize (mounted_panel mounted show_welcome).
  induction writes as [|[t d] ws IH]; intros p Hp; simpl; [exact Hp|].
  apply IH, write_displayable, Hp.
Qed.

End ResultsClaims.

(** ** Table panel rendering and refresh *)
Module PanelClaims.
Import Parsers Runner Panel App.

Lemma render_row_length (hdrs row : list str) :
  length (render_row hdrs row) = length hdrs.
Proof.
  unfold render_row.
  destruct (length row <? length hdrs) eqn:H1.
  - apply Nat.ltb_lt in H1; rewrite length_app, repeat_length; lia.
  - destruct (length hdrs <? length row) eqn:H2.
    + apply Nat.ltb_lt in H2; rewrite length_firstn; lia.
    + apply Nat.ltb_ge in H1, H2; lia.
Qed.

(** C7. When [update_content] renders a table, the rendered rows are the
    table's rows passed through [render_row], each has exactly as many cells
    as there are headers, shorter rows are right-padded with empty strings
    and longer rows are truncated. *)
Theorem update_content_rows (p : TablePanel) (td : ParsedTable) (rd : Rendered) :
  snd (update_content p td) = Some rd ->
  shown_rows rd = map (render_row (headers td)) (rows td) /\
  Forall (fun r => length r = length (headers td)) (shown_rows rd) /\
  (forall r, length r < length (headers td) ->
     render_row (headers td) r = r ++ repeat [] (length (headers td) - length r)) /\
  (forall r, length (headers td) < length r ->
     render_row (headers td) r = firstn (length (headers td)) r).
Proof.
  unfold update_content; destruct (data_table_mounted p); simpl; [|discriminate].
  intros [= <-]; simpl.
  split; [reflexivity|split; [|split]].
  - apply Forall_forall; intros r Hr; apply in_map_iff in Hr as [r0 [<- _]].
    apply render_row_length.
  - intros r Hr; unfold render_row; apply Nat.ltb_lt in Hr; rewrite Hr; reflexivity.
  - intros r Hr; unfold render_row.
    assert (Hn : (length r <? length (headers td)) = false) by (apply Nat.ltb_ge; lia).
    apply Nat.ltb_lt in Hr; rewrite Hn, Hr; reflexivity.
Qed.

Lemma update_content_rows_witness :
  shown_rows (mkRendered [s_ "a"; s_ "b"] [[s_ "1"; []]; [s_ "1"; s_ "2"]] []) =
    map (render_row [s_ "a"; s_ "b"]) [[s_ "1"]; [s_ "1"; s_ "2"; s_ "3"]] /\
  Forall (fun r => length r = 2) [[s_ "1"; []]; [s_ "1"; s_ "2"]].
Proof.
  destruct (update_content_rows (mkPanel 0 [] true)
              (mkTable [s_ "a"; s_ "b"] [[s_ "1"]; [s_ "1"; s_ "2"; s_ "3"]] [])
              (mkRendered [s_ "a"; s_ "b"] [[s_ "1"; []]; [s_ "1"; s_ "2"]] [])
              eq_refl) as [H1 [H2 _]].
  split; [exact H1|exact H2].
Defined.

Lemma cache_get_set (k : nat) (v : ParsedTable) (c : Cache) :
  cache_get k (cache_set k v c) = Some v.
Proof.
  induction c as [|[k' v'] c IH]; simpl; [rewrite Nat.eqb_refl; reflexivity|].
  destruct (Nat.eqb k k') eqn:E; simpl; [rewrite Nat.eqb_refl; reflexivity|].
  rewrite E; exact IH.
Qed.

Lemma update_content_cache (p : TablePanel) (td : ParsedTable) :
  cache_get (current_tab_index p) (tab_contents (fst (update_content p td))) = Some td.
Proof.
  unfold update_content; destruct (data_table_mounted p); apply cache_get_set.
Qed.

(** C1 counterexample: the active tab 0 caches a table; its command is a
    plain function whose query raises [ValueError("boom")]. The engine
    returns a [Failed] result, and after the refresh the cache entry is no
    longer the previous table. *)
Lemma refresh_failure_overwrites_cache :
  let old := mkTable [s_ "label"] [[s_ "localhost"]] [] in
  let p := mkPanel 0 [(0, old)] true in
  let run := snd (run_command
               (PlainFunction (s_ "status") (PRaises (Fault (s_ "ValueError")
                  (s_ "boom") (s_ "Traceback"))))
               [] false false 7) in
  cache_get 0 (tab_contents p) = Some old /\
  status (outcome_result run) = Failed /\
  cache_get 0 (tab_contents (fst (refresh_table_panel p run None parse_table_callable)))
    = Some (mkTable [] [] no_output) /\
  cache_get 0 (tab_contents (fst (refresh_table_panel p run None parse_table_callable)))
    <> Some old.
Proof. vm_compute; repeat split; discriminate. Qed.

(** C1 (corrected). A refresh rewrites the active tab's cache entry on
    failure too: when the formatter or the parser raises, or the engine
    propagates a fault, the entry becomes the table
    [{headers: [], rows: [], footer: "Error: " + message}]; when the engine
    returns a result (also a [Failed] one), the entry becomes the parse of
    its trimmed stdout, or of ["No output"] when the stdout is blank. Only a
    propagated cancellation leaves the panel untouched. *)
Theorem refresh_table_panel_cache (p : TablePanel)
    (formatter : option (str -> Exc str)) (parser : option (str -> Exc ParsedTable)) :
  (forall r e, process r formatter parser = Raise e ->
     cache_get (current_tab_index p)
       (tab_contents (fst (refresh_table_panel p (Returned r) formatter parser)))
     = Some (error_table e)) /\
  (forall r td, process r formatter parser = Ok td ->
     cache_get (current_tab_index p)
       (tab_contents (fst (refresh_table_panel p (Returned r) formatter parser)))
     = Some td) /\
  (forall k m tb r,
     cache_get (current_tab_index p)
       (tab_contents (fst (refresh_table_panel p (Propagated (Fault k m tb) r)
                            formatter parser)))
     = Some (error_table m)) /\
  (forall r, fst (refresh_table_panel p (Propagated CancelledError r) formatter parser) = p).
Proof.
  split; [|split; [|split]].
  - intros r e He; unfold refresh_table_panel; rewrite He; apply update_content_cache.
  - intros r td Ht; unfold refresh_table_panel; rewrite Ht; apply update_content_cache.
  - intros; apply update_content_cache.
  - reflexivity.
Qed.

Lemma refresh_table_panel_cache_witness :
  cache_get 0 (tab_contents (fst (refresh_table_panel (mkPanel 0 [] true)
    (Returned (mkResult [] [] [] None Failed None)) None
    (Some (fun _ => Raise (s_ "bad")))))) = Some (error_table (s_ "bad")).
Proof.
  apply (proj1 (refresh_table_panel_cache (mkPanel 0 [] true) None
                  (Some (fun _ => Raise (s_ "bad"))))).
  reflexivity.
Defined.

End PanelClaims.

(** ** The command runner *)
Module RunnerClaims.
Import Runner SpecClaims.

(** C5 failing input: a plain Python function raising
    [ValueError("boom")]. [run_command] returns a [Failed] result, but its
    stderr is [str(e)] alone: neither the fault's kind nor its traceback
    reach it. For a Click command the same fault is appended to stderr as
    kind, message and traceback. *)
Theorem run_command_plain_fault_stderr :
  let tb := s_ "Traceback (most recent call last): ValueError: boom" in
  let o := snd (run_command (PlainFunction (s_ "status")
                 (PRaises (Fault (s_ "ValueError") (s_ "boom") tb))) [] false false 3) in
  (exists r, o = Returned r) /\
  status (outcome_result o) = Failed /\
  stderr (outcome_result o) = s_ "boom" /\
  containsb (s_ "ValueError") (stderr (outcome_result o)) = false /\
  stderr (outcome_result (snd (run_command (ClickCommand (s_ "status")
           (CFinishes [] [] 1 (Some (s_ "ValueError", s_ "boom", tb)))) [] false false 3)))
    = describe_exception (s_ "ValueError") (s_ "boom") tb.
Proof.
  vm_compute; split; [eexists; reflexivity|repeat split].
Qed.

(** C6 counterexample: a plain function returning ["ok"] with a callback. *)
Lemma run_command_callback_before_release :
  fst (run_command (PlainFunction (s_ "f") (PReturns (Some (s_ "ok")))) [] true false 0)
    = [Acquire; SetStatus Done; SetEndTime; InvokeCallback; Release] /\
  ~ released_first
      (fst (run_command (PlainFunction (s_ "f") (PReturns (Some (s_ "ok")))) [] true false 0)).
Proof.
  split; [reflexivity|].
  unfold released_first; vm_compute; lia.
Qed.

(** C6 (corrected). With a registered callback, every invocation acquires
    the gate, sets its terminal status, then its end time, then calls the
    callback, and releases the gate last; the status in the result is that
    terminal status. *)
Theorem run_command_event_order (c : Command) (args : list str) (priority : bool)
    (now : nat) :
  exists evs s,
    fst (run_command c args true priority now) =
      Acquire :: evs ++ [SetStatus s; SetEndTime; InvokeCallback; Release] /\
    is_terminal s = true /\
    status (outcome_result (snd (run_command c args true priority now))) = s /\
    end_time (outcome_result (snd (run_command c args true priority now))) = Some now.
Proof.
  destruct c as [n [o|[|k m tb]]|n [out err code exc|[|k m tb]]].
  - exists [], Done; repeat split.
  - exists [SetStatus Cancelled], Cancelled; repeat split.
  - exists [], Failed; repeat split.
  - destruct (Z.eqb code 0) eqn:E.
    + exists [], Done; unfold run_command; simpl; rewrite E;
        destruct exc as [[[k m] tb]|]; repeat split.
    + exists [], Failed; unfold run_command; simpl; rewrite E;
        destruct exc as [[[k m] tb]|]; repeat split.
  - exists [], Cancelled; repeat split.
  - exists [], Failed; repeat split.
Qed.

End RunnerClaims.

(** ** The gate *)
Module GateClaims.
Import Gate.

Lemma submit_all_held (ws : list Waiter) (reqs : list (nat * bool)) :
  submit_all (mkLock true ws) reqs =
  mkLock true (ws ++ map (fun '(id, p) => mkWaiter id p) reqs).
Proof.
  revert ws; induction reqs as [|[id p] rs IH]; intros ws; simpl.
  - rewrite app_nil_r; reflexivity.
  - unfold submit, acquire; simpl; rewrite IH, <- app_assoc; reflexivity.
Qed.

Lemma serve_go_fifo (ws : list Waiter) :
  serve_go (length ws) (mkLock true ws) = ws.
Proof.
  induction ws as [|w ws IH]; simpl; [reflexivity|].
  rewrite IH; reflexivity.
Qed.

(** The lock serves the requests queued while it is held in submission
    order, whatever their priority flags. *)
Lemma gate_serves_in_submission_order (reqs : list (nat * bool)) :
  serve_order (submit_all (mkLock true []) reqs) =
  map (fun '(id, p) => mkWaiter id p) reqs.
Proof.
  rewrite submit_all_held; simpl; unfold serve_order; simpl; apply serve_go_fifo.
Qed.

(** C2 failing input: with the gate held, [normal1], [priority1] and
    [normal2] queue in this order; the gate serves [normal1] before
    [priority1], so priority waiters are not served first. *)
Theorem gate_priority_not_first :
  serve_order (submit_all (mkLock true []) [(1, false); (2, true); (3, false)]) =
    [mkWaiter 1 false; mkWaiter 2 true; mkWaiter 3 false] /\
  ~ priority_first
      (serve_order (submit_all (mkLock true []) [(1, false); (2, true); (3, false)])).
Proof.
  rewrite gate_serves_in_submission_order; split; [reflexivity|].
  intros H; specialize (H 1 0 (mkWaiter 2 true) (mkWaiter 1 false)
                          eq_refl eq_refl eq_refl eq_refl); lia.
Qed.

End GateClaims.

(** * Further properties of the code *)

(** ** More string facts *)
Module StringFacts2.
Import StringFacts.

Lemma lstrip_idem (s : str) : lstrip (lstrip s) = lstrip s.
Proof.
  induction s as [|c s IH]; simpl; [reflexivity|].
  destruct (is_space c) eqn:Hc; [exact IH|simpl; rewrite Hc; reflexivity].
Qed.

Lemma lstrip_length (s : str) : length (lstrip s) <= length s.
Proof.
  induction s as [|c s IH]; simpl; [lia|]; destruct (is_space c); simpl; lia.
Qed.

Lemma rstrip_idem (s : str) : rstrip (rstrip s) = rstrip s.
Proof. unfold rstrip; rewrite rev_involutive, lstrip_idem; reflexivity. Qed.

Lemma rstrip_last_nonspace (v : str) (c : ascii) :
  is_space c = false -> rstrip (v ++ [c]) = v ++ [c].
Proof.
  intros Hc; unfold rstrip; rewrite rev_app_distr; simpl; rewrite Hc.
  change (c :: rev v) with (rev [c] ++ rev v); rewrite <- rev_app_distr, rev_involutive.
  reflexivity.
Qed.

(** A string equal to its [rstrip] keeps that property under [lstrip]. *)
Lemma rstrip_lstrip (u : str) : rstrip u = u -> rstrip (lstrip u) = lstrip u.
Proof.
  intros Hu; destruct (lstrip_suffix u) as [pre [Hs _]].
  destruct (lstrip u) as [|a v] eqn:Hv; [reflexivity|].
  destruct (exists_last (l := a :: v) ltac:(discriminate)) as [v' [c Hvc]].
  rewrite Hvc in *.
  destruct (is_space c) eqn:Hc; [|apply rstrip_last_nonspace; exact Hc].
  exfalso.
  assert (Hlen : length (rstrip u) < length u).
  { rewrite Hs, app_assoc; unfold rstrip; rewrite rev_app_distr; simpl; rewrite Hc.
    pose proof (lstrip_length (rev (pre ++ v'))) as H.
    rewrite length_rev in *; rewrite !length_app in *; simpl; lia. }
  rewrite Hu in Hlen; lia.
Qed.

Lemma strip_idem (s : str) : strip (strip s) = strip s.
Proof.
  unfold strip; rewrite (rstrip_lstrip (rstrip s)) by apply rstrip_idem.
  apply lstrip_idem.
Qed.

Lemma strip_rstrip (s : str) : strip (rstrip s) = strip s.
Proof. unfold strip; rewrite rstrip_idem; reflexivity. Qed.

Definition no_breaks (l : str) : bool := forallb (fun c => negb (is_linebreak c)) l.

Lemma splitlines_go_no_breaks (n : nat) (s cur : str) :
  length s <= n -> no_breaks cur = true ->
  Forall (fun l => no_breaks l = true) (splitlines_go s cur).
Proof.
  assert (Hrev : forall x, no_breaks x = true -> no_breaks (rev x) = true).
  { intros x Hx; apply forallb_forall; intros y Hy; apply in_rev in Hy.
    exact (proj1 (forallb_forall _ _) Hx y Hy). }
  revert s cur; induction n as [|n IH]; intros s cur Hl Hc.
  - destruct s; [|simpl in Hl; lia]; simpl.
    destruct (is_emptyb cur); repeat constructor; auto.
  - destruct s as [|c t]; simpl.
    { destruct (is_emptyb cur); repeat constructor; auto. }
    simpl in Hl.
    destruct (Ascii.eqb c CR) eqn:Hcr.
    + destruct t as [|c2 t'].
      * constructor; [auto|apply IH; simpl; auto; lia].
      * destruct (Ascii.eqb c2 LF); constructor; auto; apply IH; simpl in *; auto; lia.
    + destruct (is_linebreak c) eqn:Hb.
      * constructor; [auto|apply IH; auto; lia].
      * apply IH; [lia|simpl; rewrite Hb; exact Hc].
Qed.

Lemma splitlines_no_breaks (s : str) :
  Forall (fun l => no_breaks l = true) (splitlines s).
Proof. apply (splitlines_go_no_breaks (length s)); auto. Qed.

Lemma splitlines_go_app (x rest cur : str) :
  no_breaks x = true -> splitlines_go (x ++ rest) cur = splitlines_go rest (rev x ++ cur).
Proof.
  revert cur; induction x as [|c x IH]; intros cur Hx; [reflexivity|].
  simpl in Hx; apply andb_true_iff in Hx as [Hc Hx]; apply negb_true_iff in Hc.
  simpl.
  assert (Hcr : Ascii.eqb c CR = false).
  { destruct (Ascii.eqb c CR) eqn:E; [apply Ascii.eqb_eq in E; subst; discriminate|auto]. }
  rewrite Hcr, Hc, IH by exact Hx; rewrite <- app_assoc; reflexivity.
Qed.

(** [splitlines] undoes ["\n".join(...)] on lines without line breaks whose
    last line is not empty. *)
Lemma splitlines_join_nl (ls : list str) :
  Forall (fun l => no_breaks l = true) ls -> (ls = [] \/ last ls [] <> []) ->
  splitlines (join_nl ls) = ls.
Proof.
  unfold splitlines; induction ls as [|x ls IH]; intros Hall Hlast; [reflexivity|].
  inversion Hall as [|? ? Hx Hls]; subst.
  destruct ls as [|y ls'].
  - simpl join_nl; rewrite <- (app_nil_r x), splitlines_go_app by exact Hx.
    rewrite app_nil_r; cbn [splitlines_go].
    destruct Hlast as [Hl|Hl]; [discriminate|simpl in Hl].
    assert (E : is_emptyb (rev x) = false).
    { destruct (rev x) eqn:E'; [|reflexivity].
      apply (f_equal (@rev ascii)) in E'; rewrite rev_involutive in E'; subst; contradiction. }
    rewrite E, rev_involutive, ?app_nil_r; reflexivity.
  - change (join_nl (x :: y :: ls')) with (x ++ LF :: join_nl (y :: ls')).
    rewrite splitlines_go_app by exact Hx.
    change (splitlines_go (LF :: join_nl (y :: ls')) (rev x ++ []))
      with (rev (rev x ++ []) :: splitlines_go (join_nl (y :: ls')) []).
    rewrite app_nil_r, rev_involutive, IH; auto.
    destruct Hlast as [Hl|Hl]; [discriminate|right; exact Hl].
Qed.

End StringFacts2.

Module ParserFacts2.
Import Parsers Parsers2 StringFacts StringFacts2.

Definition good_cell (c : str) : Prop := c <> [] /\ strip c = c.
Definition good_row (r : list str) : Prop := r <> [] /\ Forall good_cell r.

Lemma split_cells_good (l : str) : Forall good_cell (split_cells l).
Proof.
  unfold split_cells; apply Forall_forall; intros c Hc.
  apply filter_In in Hc as [Hm Hne]; apply in_map_iff in Hm as [x [<- _]].
  split; [|apply strip_idem].
  intros E; rewrite E in Hne; discriminate.
Qed.

Lemma run_loop_good_rows (ls : list str) (st : LoopState) :
  Forall good_row (ls_rows st) -> Forall good_row (ls_rows (run_loop ls st)).
Proof.
  revert st; induction ls as [|l ls IH]; intros st Hst; [exact Hst|].
  change (run_loop (l :: ls) st) with (run_loop ls (loop_step st l)).
  apply IH; unfold loop_step.
  destruct (in_footer st || triggers_footer (strip l)); [exact Hst|]; simpl.
  destruct (split_cells l) as [|c cs] eqn:E; simpl; [exact Hst|].
  apply Forall_app; split; [exact Hst|]; constructor; [|constructor].
  split; [discriminate|rewrite <- E; apply split_cells_good].
Qed.

Lemma lstrip_app_space (a b : str) :
  forallb is_space a = true -> lstrip (a ++ b) = lstrip b.
Proof.
  induction a as [|c a IH]; simpl; [reflexivity|].
  intros H; apply andb_true_iff in H as [Hc Ha]; rewrite Hc; auto.
Qed.

Lemma forallb_rev (f : ascii -> bool) (s : str) :
  forallb f s = true -> forallb f (rev s) = true.
Proof.
  intros H; apply forallb_forall; intros x Hx; apply in_rev in Hx.
  exact (proj1 (forallb_forall _ _) H x Hx).
Qed.

Lemma strip_empty_all_space (s : str) : strip s = [] -> forallb is_space s = true.
Proof.
  unfold strip, rstrip; intros H.
  destruct (lstrip_suffix (rev (lstrip (rev s)))) as [p1 [H1 Hp1]].
  rewrite H, app_nil_r in H1.
  destruct (lstrip_suffix (rev s)) as [p2 [H2 Hp2]].
  apply (f_equal (@rev ascii)) in H1; rewrite rev_involutive in H1.
  rewrite H1 in H2.
  rewrite <- (rev_involutive s), H2, forallb_rev; [reflexivity|].
  rewrite forallb_app, Hp2; simpl; apply forallb_rev; exact Hp1.
Qed.

(** A stripped line starting with ["* "] has a non-blank rest. *)
Lemma bullet_rest_nonempty (s : str) :
  prefixb bullet s = true -> strip s = s -> strip (skipn 2 s) <> [].
Proof.
  intros Hb Hs Hr.
  destruct s as [|a [|b rest]];
    [discriminate|simpl in Hb; rewrite andb_false_r in Hb; discriminate|].
  change (Ascii.eqb "*"%char a && (Ascii.eqb " "%char b && true) = true) in Hb.
  apply andb_true_iff in Hb as [Ha Hb]; apply andb_true_iff in Hb as [Hb _].
  apply Ascii.eqb_eq in Ha, Hb; subst a b.
  simpl skipn in Hr; apply strip_empty_all_space in Hr.
  unfold strip, rstrip in Hs.
  replace (rev ("*"%char :: " "%char :: rest)) with (rev rest ++ [" "%char; "*"%char]) in Hs
    by (simpl; rewrite <- app_assoc; reflexivity).
  rewrite lstrip_app_space in Hs by (apply forallb_rev; exact Hr).
  simpl in Hs; discriminate.
Qed.

Lemma plugin_row_good (l : str) (r : list str) :
  plugin_row l = Some r -> exists c, r = [c] /\ good_cell c.
Proof.
  unfold plugin_row.
  destruct (is_emptyb (strip l) || startswith_any plugin_skipped (strip l)) eqn:E1;
    [discriminate|].
  apply orb_false_iff in E1 as [E1 _].
  destruct (prefixb bullet (strip l)) eqn:E2.
  - intros H; injection H as <-; eexists; split; [reflexivity|].
    split; [apply bullet_rest_nonempty; [exact E2|apply strip_idem]|apply strip_idem].
  - rewrite E1; simpl; intros H; injection H as <-; eexists; split; [reflexivity|].
    split; [|apply strip_idem].
    intros E; rewrite E in E1; discriminate.
Qed.

Lemma calcjob_rows_outside (lines : list str) :
  forallb (fun l => negb (prefixb commands_header (strip l))) lines = true ->
  calcjob_rows lines false = [].
Proof.
  induction lines as [|l ls IH]; simpl; [reflexivity|].
  intros H; apply andb_true_iff in H as [Hl Hls]; apply negb_true_iff in Hl.
  rewrite Hl; simpl; auto.
Qed.

Lemma calcjob_rows_shape (lines : list str) (b : bool) :
  Forall (fun r => exists p0 p1, r = [p0; p1] /\ good_cell p0 /\ (p1 = [] \/ good_cell p1))
    (calcjob_rows lines b).
Proof.
  revert b; induction lines as [|l ls IH]; intros b; cbn [calcjob_rows]; [constructor|].
  destruct (prefixb commands_header (strip l)); [apply IH|].
  destruct (b && (negb (prefixb two_spaces l) || prefixb dash (strip l))); [constructor|].
  destruct (b && prefixb two_spaces l && negb (prefixb dash (strip l))); [|apply IH].
  pose proof (split_cells_good (strip l)) as Hg.
  destruct (split_cells (strip l)) as [|p0 [|p1 ps]]; [apply IH| |];
    inversion Hg as [|? ? H0 Hrest]; subst; constructor; auto.
  - exists p0, []; auto.
  - inversion Hrest; subst; exists p0, p1; auto.
Qed.

End ParserFacts2.

(** ** Properties of the parsers *)
Module ParserExtras.
Import Parsers Parsers2 ParserFacts2 ParserClaims.

(** [parse_table] never produces an empty row or an empty or unstripped
    header or cell: every cell comes out of [c.strip() ... if c.strip()],
    and a line whose cell list is empty adds no row. *)
Theorem parse_table_cells_stripped (text : str) :
  Forall good_cell (headers (parse_table text)) /\
  Forall good_row (rows (parse_table text)).
Proof.
  unfold parse_table.
  destruct (splitlines (strip text)) as [|l0 ls] eqn:E; [simpl; auto|].
  destruct (find_separator (l0 :: ls)) as [[|j]|]; simpl; try (split; constructor).
  - split; [constructor|apply run_loop_good_rows; constructor].
  - split; [apply split_cells_good|apply run_loop_good_rows; constructor].
Qed.

(** [parse_plugin_list] has the single header ["entry point"], no footer,
    and each row is one non-empty stripped name, also for a bullet line
    ["* name"]. *)
Theorem parse_plugin_list_shape (text : str) :
  headers (parse_plugin_list text) = [s_ "entry point"] /\
  footer (parse_plugin_list text) = [] /\
  Forall (fun r => exists c, r = [c] /\ good_cell c) (rows (parse_plugin_list text)).
Proof.
  split; [reflexivity|split; [reflexivity|]].
  apply collect_rows_forall; exact plugin_row_good.
Qed.

(** Every row of [parse_calcjob_help] has two cells, a non-empty stripped
    command name and a description that is empty or stripped and non-empty. *)
Theorem parse_calcjob_help_rows (text : str) :
  headers (parse_calcjob_help text) = [s_ "command"; s_ "description"] /\
  Forall (fun r => exists p0 p1, r = [p0; p1] /\ good_cell p0 /\ (p1 = [] \/ good_cell p1))
    (rows (parse_calcjob_help text)).
Proof. split; [reflexivity|apply calcjob_rows_shape]. Qed.

(** Without a line starting with ["Commands:"] the help text yields no rows. *)
Theorem parse_calcjob_help_no_commands (text : str) :
  forallb (fun l => negb (prefixb commands_header (strip l))) (splitlines (strip text)) = true ->
  rows (parse_calcjob_help text) = [].
Proof. intros H; apply calcjob_rows_outside; exact H. Qed.

Lemma parse_calcjob_help_no_commands_witness :
  rows (parse_calcjob_help (s_ "Usage: verdi calcjob [OPTIONS]" ++ [LF] ++ s_ "  res  Show.")) = [].
Proof. apply parse_calcjob_help_no_commands; vm_compute; reflexivity. Defined.

End ParserExtras.

Module FormatterFacts.
Import Formatters StringFacts2.

Lemma drop_blank_front_spec (rl : list str) :
  exists blanks, rl = blanks ++ drop_blank_front rl /\
    Forall (fun l => blank_line l = true) blanks /\
    (drop_blank_front rl = [] \/
     exists l rest, drop_blank_front rl = l :: rest /\ blank_line l = false).
Proof.
  induction rl as [|l rl [bl [Hrl [Hbl Hd]]]]; simpl.
  - exists []; auto.
  - destruct (blank_line l) eqn:Hl.
    + exists (l :: bl); simpl; rewrite <- Hrl; auto.
    + exists []; simpl; split; [reflexivity|split; [constructor|right; eauto]].
Qed.

Lemma pop_trailing_blank_spec (lines : list str) :
  exists trail, lines = pop_trailing_blank lines ++ trail /\
    Forall (fun l => blank_line l = true) trail /\
    (pop_trailing_blank lines = [] \/ blank_line (last (pop_trailing_blank lines) []) = false).
Proof.
  unfold pop_trailing_blank.
  destruct (drop_blank_front_spec (rev lines)) as [bl [Hrl [Hbl Hd]]].
  exists (rev bl); split; [|split].
  - rewrite <- rev_app_distr, <- Hrl, rev_involutive; reflexivity.
  - apply Forall_rev; exact Hbl.
  - destruct Hd as [-> | [l [rest [-> Hl]]]]; [left; reflexivity|right].
    simpl; rewrite last_last; exact Hl.
Qed.

Lemma blank_line_nonempty (l : str) : blank_line l = false -> l <> [].
Proof. intros H E; subst; discriminate. Qed.

(** The shared body of [format_process_list] and [format_table_output]. *)
Lemma trim_lines_spec (t : str) :
  let out := join_nl (pop_trailing_blank (splitlines t)) in
  exists trail, splitlines t = splitlines out ++ trail /\
    Forall (fun l => blank_line l = true) trail /\
    (splitlines out = [] \/ blank_line (last (splitlines out) []) = false).
Proof.
  intros out; subst out.
  destruct (pop_trailing_blank_spec (splitlines t)) as [trail [Ht [Htr Hl]]].
  pose proof (splitlines_no_breaks t) as Hnb; rewrite Ht in Hnb.
  apply Forall_app in Hnb as [Hnb _].
  rewrite splitlines_join_nl; [exists trail; auto|exact Hnb|].
  destruct Hl as [Hl|Hl]; [left; exact Hl|right; apply blank_line_nonempty; exact Hl].
Qed.

End FormatterFacts.

(** ** Properties of the formatters *)
Module FormatterExtras.
Import Formatters FormatterFacts StringFacts2.

(** [format_table_output] and [format_process_list] only remove trailing
    blank lines (after the command echo is dropped): the lines of the
    result followed by blank lines are the lines of the input, and the
    result does not end in a blank line. *)
Theorem format_table_output_trailing (text : str) :
  (exists trail, splitlines (strip_command_echo text) =
                   splitlines (format_table_output text) ++ trail /\
     Forall (fun l => blank_line l = true) trail /\
     (splitlines (format_table_output text) = [] \/
      blank_line (last (splitlines (format_table_output text)) []) = false)) /\
  (exists trail, splitlines (strip_command_echo text) =
                   splitlines (format_process_list text) ++ trail /\
     Forall (fun l => blank_line l = true) trail /\
     (splitlines (format_process_list text) = [] \/
      blank_line (last (splitlines (format_process_list text)) []) = false)).
Proof. split; apply trim_lines_spec. Qed.

(** The strip formatters return text without surrounding whitespace:
    formatting it once more with [.strip()] changes nothing. *)
Theorem strip_formatters_stripped (text : str) :
  strip (format_daemon_status text) = format_daemon_status text /\
  strip (format_storage_info text) = format_storage_info text /\
  strip (format_config_list text) = format_config_list text /\
  strip (format_profile_list text) = format_profile_list text.
Proof. repeat split; apply strip_idem. Qed.

(** [format_error_message] never returns an empty message. *)
Theorem format_error_message_nonempty (cmd_name err : str) :
  format_error_message cmd_name err <> [].
Proof.
  unfold format_error_message.
  destruct (_ || _); [discriminate|].
  destruct (_ && _); [discriminate|].
  destruct (_ && _); [discriminate|].
  destruct err; discriminate.
Qed.

End FormatterExtras.

Module ResultsFacts.
Import Results StringFacts2.

Lemma str_eqb_refl (s : str) : str_eqb s s = true.
Proof. induction s as [|c s IH]; simpl; [reflexivity|rewrite Ascii.eqb_refl; exact IH]. Qed.

Lemma str_eqb_eq (a b : str) : str_eqb a b = true -> a = b.
Proof.
  revert b; induction a as [|x a IH]; intros [|y b]; simpl; try discriminate; auto.
  intros H; apply andb_true_iff in H as [Hx H]; apply Ascii.eqb_eq in Hx; subst.
  f_equal; auto.
Qed.

Lemma set_add_In (x y : str) (xs : list str) :
  In x xs \/ x = y -> In x (set_add y xs).
Proof.
  unfold set_add; destruct (existsb (str_eqb y) xs) eqn:E.
  - intros [H| ->]; [exact H|].
    apply existsb_exists in E as [z [Hz Hyz]]; apply str_eqb_eq in Hyz; subst; exact Hz.
  - intros H; apply in_or_app; destruct H as [H| ->]; [left; exact H|right; left; reflexivity].
Qed.

Lemma mark_fold_In (x : str) (n : str) (l acc : list str) :
  In x acc \/ (In x l /\ containsb x n = true) ->
  In x (fold_left (fun acc p => if containsb p n then set_add p acc else acc) l acc).
Proof.
  revert acc; induction l as [|p l IH]; intros acc H; simpl.
  - destruct H as [H|[[] _]]; exact H.
  - apply IH; destruct H as [H|[[<-|Hin] Hc]].
    + left; destruct (containsb p n); [apply set_add_In; left|]; exact H.
    + left; rewrite Hc; apply set_add_In; right; reflexivity.
    + right; auto.
Qed.

Lemma mark_error_seen_mono (x : str) (seen : list str) (n : str) :
  In x seen -> In x (mark_error_seen seen n).
Proof. intros H; apply mark_fold_In; left; exact H. Qed.

Lemma mark_error_seen_adds (x : str) (seen : list str) (n : str) :
  In x error_patterns -> containsb x n = true -> In x (mark_error_seen seen n).
Proof. intros H Hc; apply mark_fold_In; right; auto. Qed.

Lemma is_duplicate_error_intro (pat : str) (seen : list str) (n : str) :
  In pat error_patterns -> containsb pat n = true -> In pat seen ->
  is_duplicate_error seen n = true.
Proof.
  intros Hp Hc Hs; apply existsb_exists; exists pat; split; [exact Hp|].
  rewrite Hc; simpl; apply existsb_exists; exists pat; split; [exact Hs|apply str_eqb_refl].
Qed.

Lemma write_seen_mono (x : str) (p : ResultsPanel) (t : str) (d : bool) :
  In x (seen_errors p) -> In x (seen_errors (write p t d)).
Proof.
  intros H; unfold write.
  destruct (negb (data_table_mounted p)); [exact H|].
  destruct (d && is_duplicate_error (seen_errors p) (lower (strip t))); [exact H|].
  simpl; destruct d; [apply mark_error_seen_mono|]; exact H.
Qed.

Lemma write_all_seen_mono (x : str) (p : ResultsPanel) (ws : list (str * bool)) :
  In x (seen_errors p) -> In x (seen_errors (write_all p ws)).
Proof.
  revert p; induction ws as [|[t d] ws IH]; intros p H; simpl; [exact H|].
  apply IH, write_seen_mono, H.
Qed.

Lemma write_duplicate (p : ResultsPanel) (t : str) :
  is_duplicate_error (seen_errors p) (lower (strip t)) = true -> write p t true = p.
Proof.
  intros H; unfold write; rewrite H; destruct (negb (data_table_mounted p)); reflexivity.
Qed.

(** Writing the same text twice with [dedupe] is writing it once when the
    text contains one of the error patterns. *)
Lemma write_dedupe_twice (p : ResultsPanel) (t pat : str) :
  In pat error_patterns -> containsb pat (lower (strip t)) = true ->
  write (write p t true) t true = write p t true.
Proof.
  intros Hp Hc.
  destruct (is_duplicate_error (seen_errors p) (lower (strip t))) eqn:Hd.
  { rewrite (write_duplicate p t Hd); apply write_duplicate; exact Hd. }
  destruct (data_table_mounted p) eqn:Hm.
  - apply write_duplicate.
    unfold write; rewrite Hm, Hd; simpl.
    apply (is_duplicate_error_intro pat); auto; apply mark_error_seen_adds; auto.
  - assert (E : write p t true = p) by (unfold write; rewrite Hm; reflexivity).
    rewrite !E; reflexivity.
Qed.

Lemma keep_rstrip (l : str) : keep_content_line (rstrip l) = keep_content_line l.
Proof. unfold keep_content_line; rewrite strip_rstrip; reflexivity. Qed.

Lemma filter_keep_rstrip (xs : list str) :
  filter keep_content_line (map rstrip (filter keep_content_line xs)) =
  map rstrip (filter keep_content_line xs).
Proof.
  induction xs as [|x xs IH]; simpl; [reflexivity|].
  destruct (keep_content_line x) eqn:E; simpl; [|exact IH].
  rewrite keep_rstrip, E, IH; reflexivity.
Qed.

End ResultsFacts.

Module App2Facts.
Import Results App2 Formatters ResultsFacts.

Lemma profile_message_pattern :
  containsb (s_ "no aiida profile configured") (lower (strip profile_message)) = true.
Proof. vm_compute; reflexivity. Qed.

Lemma no_aiida_in_patterns : In (s_ "no aiida profile configured") error_patterns.
Proof. left; reflexivity. Qed.

End App2Facts.

(** ** Properties of the results panel *)
Module ResultsExtras.
Import Results App2 Formatters StringFacts2 ResultsFacts App2Facts.

(** A [dedupe] write of a text containing an error pattern already seen is
    dropped, whatever was written in between: [_seen_errors] only grows. *)
Theorem dedupe_suppresses_seen_pattern (p : ResultsPanel) (ws : list (str * bool))
    (pat t : str) :
  In pat error_patterns -> In pat (seen_errors p) ->
  containsb pat (lower (strip t)) = true ->
  write (write_all p ws) t true = write_all p ws.
Proof.
  intros Hp Hs Hc; apply write_duplicate.
  apply (is_duplicate_error_intro pat); auto.
  apply write_all_seen_mono; exact Hs.
Qed.

Lemma dedupe_suppresses_seen_pattern_witness :
  write (write_all (mkResults true [] [s_ "verdi setup"]) [(s_ "ok", false)])
        (s_ "Please use Verdi Setup") true =
  write_all (mkResults true [] [s_ "verdi setup"]) [(s_ "ok", false)].
Proof.
  apply (dedupe_suppresses_seen_pattern _ _ (s_ "verdi setup"));
    [vm_compute; tauto|left; reflexivity|vm_compute; reflexivity].
Defined.

(** [_filter_content_lines] is idempotent: the lines it keeps are kept
    again and already right-stripped. *)
Theorem filter_content_lines_idem (lines : list str) :
  filter_content_lines (filter_content_lines lines) = filter_content_lines lines.
Proof.
  unfold filter_content_lines; rewrite filter_keep_rstrip, map_map.
  apply map_ext; apply rstrip_idem.
Qed.

(** The stderr of a profile command is reported once: routing the same
    stderr a second time (the next refresh) adds nothing. *)
Theorem route_stderr_profile_once (rp : ResultsPanel) (cmd_name err : str) :
  containsb (s_ "profile") (lower cmd_name) = true ->
  route_stderr (route_stderr rp cmd_name err) cmd_name err = route_stderr rp cmd_name err.
Proof.
  intros Hn; unfold route_stderr.
  destruct (is_emptyb (strip err)); [reflexivity|].
  destruct (_ && _); [reflexivity|].
  unfold format_error_message; rewrite Hn; simpl.
  apply (write_dedupe_twice _ _ _ no_aiida_in_patterns profile_message_pattern).
Qed.

Lemma route_stderr_profile_once_witness :
  let rp := route_stderr (mounted_panel true false) (s_ "verdi_profile_list") (s_ "boom") in
  route_stderr rp (s_ "verdi_profile_list") (s_ "boom") = rp.
Proof. apply route_stderr_profile_once; vm_compute; reflexivity. Defined.

End ResultsExtras.

Module SelectionFacts.
Import Selection.

Lemma skipn_nth_error (msgs : list str) (i : nat) :
  match nth_error msgs i with
  | Some m => skipn i msgs = m :: skipn (S i) msgs
  | None => skipn i msgs = []
  end.
Proof.
  revert i; induction msgs as [|m ms IH]; intros [|i]; simpl; auto; apply IH.
Qed.

Lemma pick_seq (msgs : list str) (lo n : nat) :
  pick msgs (seq lo n) = firstn n (skipn lo msgs).
Proof.
  revert lo; induction n as [|n IH]; intros lo; [reflexivity|].
  simpl; pose proof (skipn_nth_error msgs lo) as H.
  destruct (nth_error msgs lo) as [m|] eqn:E; rewrite H, IH; [reflexivity|].
  pose proof (skipn_nth_error msgs (S lo)) as H1.
  destruct (nth_error msgs (S lo)) eqn:E1.
  - exfalso; apply nth_error_None in E.
    assert (S lo < length msgs) by (apply nth_error_Some; congruence); lia.
  - rewrite H1; destruct n; reflexivity.
Qed.

End SelectionFacts.

Module PanelFacts.
Import Parsers Panel Tabs.

Lemma cache_set_same (k : nat) (v : ParsedTable) (c : Cache) :
  cache_get k c = Some v -> cache_set k v c = c.
Proof.
  induction c as [|[k' v'] c IH]; simpl; [discriminate|].
  destruct (Nat.eqb k k') eqn:E.
  - intros H; injection H as ->; apply Nat.eqb_eq in E; subst; reflexivity.
  - intros H; rewrite IH; auto.
Qed.

Lemma cache_get_set_other (k k' : nat) (v : ParsedTable) (c : Cache) :
  k <> k' -> cache_get k (cache_set k' v c) = cache_get k c.
Proof.
  intros Hk; induction c as [|[j w] c IH]; simpl.
  - destruct (Nat.eqb k k') eqn:E; [apply Nat.eqb_eq in E; contradiction|reflexivity].
  - destruct (Nat.eqb k' j) eqn:E; simpl.
    + apply Nat.eqb_eq in E; subst j.
      destruct (Nat.eqb k k') eqn:E'; [apply Nat.eqb_eq in E'; contradiction|reflexivity].
    + destruct (Nat.eqb k j); [reflexivity|exact IH].
Qed.

(** Showing a tab never changes the panel: the cached table is written back
    to the same key. *)
Lemma show_tab_panel (p : TablePanel) : fst (show_tab p) = p.
Proof.
  unfold show_tab; destruct (cache_get (current_tab_index p) (tab_contents p)) eqn:E;
    [|reflexivity].
  unfold update_content; rewrite (cache_set_same _ _ _ E).
  destruct p as [i c m]; simpl; destruct m; reflexivity.
Qed.

Lemma next_tab_cases (ntabs : nat) (p : TablePanel) :
  next_tab ntabs p =
  if S (current_tab_index p) <? ntabs
  then (true, set_index (S (current_tab_index p)) p,
        Some (snd (show_tab (set_index (S (current_tab_index p)) p))))
  else (false, p, None).
Proof.
  unfold next_tab.
  replace (Z.ltb (Z.of_nat (current_tab_index p)) (Z.of_nat ntabs - 1))
    with (S (current_tab_index p) <? ntabs).
  - destruct (S (current_tab_index p) <? ntabs); [|reflexivity].
    pose proof (show_tab_panel (set_index (S (current_tab_index p)) p)) as H.
    destruct (show_tab _) as [p' v]; simpl in *; subst; reflexivity.
  - destruct (S (current_tab_index p) <? ntabs) eqn:E;
      [apply Nat.ltb_lt in E|apply Nat.ltb_ge in E]; symmetry;
      [apply Z.ltb_lt|apply Z.ltb_ge]; lia.
Qed.

Lemma prev_tab_cases (p : TablePanel) :
  prev_tab p =
  if 0 <? current_tab_index p
  then (true, set_index (pred (current_tab_index p)) p,
        Some (snd (show_tab (set_index (pred (current_tab_index p)) p))))
  else (false, p, None).
Proof.
  unfold prev_tab; destruct (0 <? current_tab_index p); [|reflexivity].
  pose proof (show_tab_panel (set_index (pred (current_tab_index p)) p)) as H.
  destruct (show_tab _) as [p' v]; simpl in *; subst; reflexivity.
Qed.

End PanelFacts.

(** ** Properties of the selection, the tabs and the tab cache *)
Module PanelExtras.
Import Parsers Panel Selection Tabs SelectionFacts PanelFacts.

(** After [v] at row [st] and a cursor move to row [c], [y] copies the
    contiguous block of messages from [min st c] to [max st c] (the part
    that exists), joined with newlines; nothing when that block is empty. *)
Theorem copy_after_visual_selection (msgs : list str) (s0 : Selection) (st c : nat) :
  sel_mode s0 = false ->
  copy_selected_rows true msgs
    (update_selection true (toggle_selection true s0 (Z.of_nat st)) (Z.of_nat c)) =
  match firstn (Nat.max st c + 1 - Nat.min st c) (skipn (Nat.min st c) msgs) with
  | [] => None
  | block => Some (join_nl block)
  end.
Proof.
  intros Hm; unfold toggle_selection; rewrite Hm; simpl.
  assert (Hle : Z.leb 0 (Z.of_nat st) = true) by (apply Z.leb_le; lia).
  assert (Hlt : Z.ltb (Z.of_nat c) 0 = false) by (apply Z.ltb_ge; lia).
  rewrite Hle; unfold update_selection; simpl; rewrite Hlt, !Nat2Z.id.
  unfold copy_selected_rows; simpl.
  replace (Nat.max st c + 1 - Nat.min st c) with (S (Nat.max st c - Nat.min st c)) by lia.
  simpl is_emptyb; simpl negb; cbv iota.
  rewrite <- pick_seq; reflexivity.
Qed.

Lemma copy_after_visual_selection_witness :
  copy_selected_rows true [s_ "a"; s_ "b"; s_ "c"; s_ "d"]
    (update_selection true (toggle_selection true (mkSel false None []) (Z.of_nat 2))
       (Z.of_nat 0)) =
  match firstn (Nat.max 2 0 + 1 - Nat.min 2 0) (skipn (Nat.min 2 0)
                 [s_ "a"; s_ "b"; s_ "c"; s_ "d"]) with
  | [] => None
  | block => Some (join_nl block)
  end.
Proof. apply copy_after_visual_selection; reflexivity. Defined.

(** [next_tab] moves one tab right exactly when there is one, [prev_tab]
    one tab left exactly when there is one, and both keep the index inside
    the tab list. *)
Theorem tab_moves_in_bounds (ntabs : nat) (p : TablePanel) :
  current_tab_index p < ntabs ->
  let '(moved, p', _) := next_tab ntabs p in
  moved = (S (current_tab_index p) <? ntabs) /\
  current_tab_index p' = (if moved then S (current_tab_index p) else current_tab_index p) /\
  current_tab_index p' < ntabs /\
  let '(moved2, p2, _) := prev_tab p in
  moved2 = (0 <? current_tab_index p) /\
  current_tab_index p2 = (if moved2 then pred (current_tab_index p) else current_tab_index p) /\
  current_tab_index p2 < ntabs.
Proof.
  intros H; rewrite next_tab_cases, prev_tab_cases.
  destruct (S (current_tab_index p) <? ntabs) eqn:E1;
  destruct (0 <? current_tab_index p) eqn:E2; simpl;
    rewrite ?Nat.ltb_lt, ?Nat.ltb_ge in *; repeat split; auto; lia.
Qed.

Lemma tab_moves_in_bounds_witness :
  let '(moved, p', _) := next_tab 3 (mkPanel 1 [] true) in
  moved = (S 1 <? 3) /\ current_tab_index p' = (if moved then 2 else 1) /\
  current_tab_index p' < 3 /\
  let '(moved2, p2, _) := prev_tab (mkPanel 1 [] true) in
  moved2 = (0 <? 1) /\ current_tab_index p2 = (if moved2 then 0 else 1) /\
  current_tab_index p2 < 3.
Proof. apply (tab_moves_in_bounds 3 (mkPanel 1 [] true)); simpl; lia. Defined.

(** Switching tabs only changes the index: the cache is left as it is, and
    [prev_tab] after a successful [next_tab] gives back the same panel,
    showing the current tab again ([Restored] from the cache or
    ["Loading..."]) as [show_tab] does. *)
Theorem next_then_prev_tab (ntabs : nat) (p : TablePanel) :
  tab_contents (snd (fst (next_tab ntabs p))) = tab_contents p /\
  tab_contents (snd (fst (prev_tab p))) = tab_contents p /\
  (fst (fst (next_tab ntabs p)) = true ->
   prev_tab (snd (fst (next_tab ntabs p))) = (true, p, Some (snd (show_tab p)))).
Proof.
  rewrite next_tab_cases, prev_tab_cases; split; [|split].
  - destruct (S (current_tab_index p) <? ntabs); reflexivity.
  - destruct (0 <? current_tab_index p); reflexivity.
  - destruct (S (current_tab_index p) <? ntabs); simpl; [|discriminate].
    intros _; rewrite prev_tab_cases; simpl; destruct p; reflexivity.
Qed.

(** [update_content] replaces the cache entry of the current tab only. *)
Theorem update_content_other_tabs (p : TablePanel) (td : ParsedTable) (k : nat) :
  k <> current_tab_index p ->
  cache_get k (tab_contents (fst (update_content p td))) = cache_get k (tab_contents p).
Proof.
  intros Hk; unfold update_content; destruct (data_table_mounted p); simpl;
    apply cache_get_set_other; exact Hk.
Qed.

Lemma update_content_other_tabs_witness :
  cache_get 0 (tab_contents (fst (update_content
    (mkPanel 1 [(0, empty_table)] true) (mkTable [] [] (s_ "x"))))) =
  cache_get 0 (tab_contents (mkPanel 1 [(0, empty_table)] true)).
Proof. apply update_content_other_tabs; simpl; lia. Defined.

End PanelExtras.

Module App2Facts2.
Import Parsers Runner Panel App App2 ResultsFacts.

Lemma key_eqb_refl (k : str * str) : key_eqb k k = true.
Proof. unfold key_eqb; rewrite !str_eqb_refl; reflexivity. Qed.

Lemma loaded_add_mem (k : str * str) (l : Loaded) : loaded_mem k (loaded_add k l) = true.
Proof.
  unfold loaded_add; destruct (loaded_mem k l) eqn:E; [exact E|].
  unfold loaded_mem; rewrite existsb_app; simpl; rewrite key_eqb_refl, orb_true_r; reflexivity.
Qed.

Lemma update_content_index (p : TablePanel) (td : ParsedTable) :
  current_tab_index (fst (update_content p td)) = current_tab_index p.
Proof. unfold update_content; destruct (data_table_mounted p); reflexivity. Qed.

Lemma update_content_current (p : TablePanel) (td : ParsedTable) :
  cache_get (current_tab_index p) (tab_contents (fst (update_content p td))) = Some td.
Proof.
  assert (H : forall k c, cache_get k (cache_set k td c) = Some td).
  { intros k c; induction c as [|[j w] c IH]; simpl.
    - rewrite Nat.eqb_refl; reflexivity.
    - destruct (Nat.eqb k j) eqn:E; simpl; [rewrite Nat.eqb_refl; reflexivity|].
      rewrite E; exact IH. }
  unfold update_content; destruct (data_table_mounted p); apply H.
Qed.

Lemma str_mem_perm (x : str) (xs : list str) :
  str_mem x xs = true -> Permutation xs (x :: remove_first x xs).
Proof.
  induction xs as [|y ys IH]; simpl; [discriminate|].
  unfold str_mem; simpl; destruct (Results.str_eqb x y) eqn:E; simpl.
  - intros _; apply str_eqb_eq in E; subst; reflexivity.
  - intros H; eapply perm_trans; [apply perm_skip, (IH H)|apply perm_swap].
Qed.

End App2Facts2.

Module GateFacts2.
Import Gate Gate2.

Definition gate_inv (st : Lock * list Waiter) : Prop :=
  (locked (fst st) = true /\ length (snd st) = 1) \/
  (locked (fst st) = false /\ snd st = [] /\ waiters (fst st) = []).

Lemma step_inv (st : Lock * list Waiter) (op : GateOp) :
  gate_inv st -> gate_inv (step st op).
Proof.
  destruct st as [[lk ws] hs]; unfold gate_inv; simpl.
  intros [[-> Hh]|[-> [-> ->]]]; destruct op as [id p|]; simpl.
  - left; split; [reflexivity|exact Hh].
  - destruct hs as [|h hs']; [simpl in Hh; discriminate|].
    unfold release; simpl; destruct ws as [|w rest]; simpl.
    + right; auto.
    + left; auto.
  - left; auto.
  - right; auto.
Qed.

Lemma fold_step_inv (ops : list GateOp) (st : Lock * list Waiter) :
  gate_inv st -> gate_inv (fold_left step ops st).
Proof.
  revert st; induction ops as [|op ops IH]; intros st H; simpl; [exact H|].
  apply IH, step_inv, H.
Qed.

End GateFacts2.

(** ** Properties of the loaders, the auto-refresh pass, [run_command] and
    the gate *)
Module AppExtras.
Import Parsers Runner Panel App App2 Runner2 Gate Gate2.
Import ResultsFacts App2Facts2 GateFacts2.

(** A lazy load whose formatter does not raise, parsed by [parse_table],
    marks the tab loaded whenever it is not cancelled, also when the command
    itself failed; the next visit of that tab starts no new load. *)
Theorem lazy_load_marks_loaded (s : LazyState) (panel_id tab_name : str)
    (names : list str) (c : Command) (formatter : option (str -> Exc str)) :
  (forall x, match formatter with Some f => exists y, f x = Ok y | None => True end) ->
  current_tab_name names (lz_panel s) = tab_name ->
  match refresh_table_panel_lazy s panel_id tab_name c formatter parse_table_callable with
  | None => load_tab_data c = BRaise CancelledError
  | Some s' => loaded_mem (panel_id, tab_name) (lz_loaded s') = true /\
               lazy_load_needed (lz_loaded s') panel_id names (lz_panel s') = false
  end.
Proof.
  intros Hf Hn; unfold refresh_table_panel_lazy.
  destruct (load_tab_data c) as [out err code|[|k m tb]] eqn:Hl.
  - unfold lazy_process.
    destruct formatter as [f|].
    + destruct (Hf (if is_emptyb (strip out) then no_output else strip out)) as [y Hy].
      rewrite Hy; simpl.
      unfold lazy_load_needed; rewrite loaded_add_mem; split; [reflexivity|].
      unfold current_tab_name in *; rewrite update_content_index, Hn, loaded_add_mem.
      reflexivity.
    + simpl; unfold lazy_load_needed; rewrite loaded_add_mem; split; [reflexivity|].
      unfold current_tab_name in *; rewrite update_content_index, Hn, loaded_add_mem.
      reflexivity.
  - reflexivity.
  - exfalso; unfold load_tab_data in Hl.
    destruct (run_command_in_batch c) as [|[|]]; discriminate.
Qed.

Lemma lazy_load_marks_loaded_witness :
  match refresh_table_panel_lazy (mkLazy (mkPanel 0 [] true) (Results.mounted_panel true true) [])
          (s_ "panel-1") (s_ "code")
          (PlainFunction (s_ "verdi_code_list") (PRaises (Fault (s_ "E") (s_ "boom") [])))
          None parse_table_callable with
  | None => load_tab_data (PlainFunction (s_ "verdi_code_list")
                             (PRaises (Fault (s_ "E") (s_ "boom") []))) = BRaise CancelledError
  | Some s' => loaded_mem (s_ "panel-1", s_ "code") (lz_loaded s') = true /\
               lazy_load_needed (lz_loaded s') (s_ "panel-1") [s_ "code"] (lz_panel s') = false
  end.
Proof.
  apply (lazy_load_marks_loaded _ _ _ [s_ "code"]); [intros; exact I|reflexivity].
Defined.

(** A lazy load whose formatter raises leaves the tab unloaded, so it is
    tried again on the next visit, and caches an error table for the tab. *)
Theorem lazy_load_formatter_raises (s : LazyState) (panel_id tab_name : str)
    (c : Command) (f : str -> Exc str) (e : str)
    (parser : option (str -> Exc ParsedTable)) :
  (forall x, f x = Raise e) -> load_tab_data c <> BRaise CancelledError ->
  exists s', refresh_table_panel_lazy s panel_id tab_name c (Some f) parser = Some s' /\
    lz_loaded s' = lz_loaded s /\
    exists msg, cache_get (current_tab_index (lz_panel s)) (tab_contents (lz_panel s')) =
                Some (error_table msg).
Proof.
  intros Hf Hc; unfold refresh_table_panel_lazy.
  destruct (load_tab_data c) as [out err code|[|k m tb]] eqn:Hl.
  - unfold lazy_process; rewrite Hf.
    eexists; split; [reflexivity|split; [reflexivity|]].
    exists e; apply update_content_current.
  - contradiction.
  - eexists; split; [reflexivity|split; [reflexivity|]].
    exists m; apply update_content_current.
Qed.

Lemma lazy_load_formatter_raises_witness :
  exists s', refresh_table_panel_lazy (mkLazy (mkPanel 0 [] true) (Results.mounted_panel true true) [])
               (s_ "panel-1") (s_ "status")
               (PlainFunction (s_ "verdi_status") (PReturns (Some (s_ "ok"))))
               (Some (fun _ => Raise (s_ "bad"))) None = Some s' /\
    lz_loaded s' = [] /\
    exists msg, cache_get 0 (tab_contents (lz_panel s')) = Some (error_table msg).
Proof.
  apply (lazy_load_formatter_raises
           (mkLazy (mkPanel 0 [] true) (Results.mounted_panel true true) [])
           _ _ _ (fun _ => Raise (s_ "bad")) (s_ "bad")); [reflexivity|discriminate].
Defined.

(** In a lazy load that is not cancelled and whose formatting and parsing
    succeed, a blank stderr or one that only reports a missing configuration
    file leaves the results panel as it is, while the parsed table is cached
    for the current tab and the tab is marked loaded. *)
Theorem lazy_load_benign_stderr (s : LazyState) (panel_id tab_name : str) (c : Command)
    (formatter : option (str -> Exc str)) (parser : option (str -> Exc ParsedTable))
    (out err : str) (code : Z) (td : ParsedTable) :
  load_tab_data c = BOk out err code ->
  lazy_process out formatter parser = Ok td ->
  (is_emptyb (strip err) = true \/
   (containsb (s_ "configuration file") (Results.lower (strip err)) = true /\
    containsb (s_ "does not exist") (Results.lower (strip err)) = true)) ->
  exists s', refresh_table_panel_lazy s panel_id tab_name c formatter parser = Some s' /\
    lz_results s' = lz_results s /\
    cache_get (current_tab_index (lz_panel s)) (tab_contents (lz_panel s')) = Some td /\
    loaded_mem (panel_id, tab_name) (lz_loaded s') = true.
Proof.
  intros Hl Hp Herr; unfold refresh_table_panel_lazy; rewrite Hl, Hp.
  eexists; split; [reflexivity|]; simpl.
  split; [|split; [apply update_content_current|apply loaded_add_mem]].
  unfold route_stderr.
  destruct Herr as [H|[H1 H2]]; [rewrite H; reflexivity|].
  rewrite H1, H2; destruct (is_emptyb (strip err)); reflexivity.
Qed.

Lemma lazy_load_benign_stderr_witness :
  exists s', refresh_table_panel_lazy
               (mkLazy (mkPanel 0 [] true) (Results.mounted_panel true true) [])
               (s_ "panel-4") (s_ "status")
               (ClickCommand (s_ "status")
                  (CFinishes (s_ "ok") (s_ "Configuration file /x does not exist") 0 None))
               None None = Some s' /\
    lz_results s' = Results.mounted_panel true true /\
    cache_get 0 (tab_contents (lz_panel s')) = Some (mkTable [] [] (s_ "ok")) /\
    loaded_mem (s_ "panel-4", s_ "status") (lz_loaded s') = true.
Proof.
  apply (lazy_load_benign_stderr
           (mkLazy (mkPanel 0 [] true) (Results.mounted_panel true true) [])
           _ _ _ None None (s_ "ok") (s_ "Configuration file /x does not exist") 0);
    [reflexivity|vm_compute; reflexivity|right; split; vm_compute; reflexivity].
Defined.


(** [CommandResult.success] holds exactly for a plain function that
    returned and for a Click command that finished with exit code 0. *)
Theorem run_command_success (c : Command) (args : list str)
    (has_callback priority : bool) (now : nat) :
  success (outcome_result (snd (run_command c args has_callback priority now))) =
  match c with
  | PlainFunction _ (PReturns _) => true
  | ClickCommand _ (CFinishes _ _ code _) => Z.eqb code 0
  | _ => false
  end.
Proof.
  destruct c as [n [o|[|k m tb]]|n [out err code exc|[|k m tb]]];
    unfold run_command; simpl; try reflexivity.
  destruct code; destruct exc as [[[? ?] ?]|]; reflexivity.
Qed.

(** A finished Click command keeps its stdout and exit code, and its stderr
    begins with what the command wrote to stderr (a caught exception is
    appended to it). *)
Theorem run_command_click_output (n : str) (out err : str) (code : Z)
    (exc : option (str * str * str)) (args : list str)
    (has_callback priority : bool) (now : nat) :
  exists r, snd (run_command (ClickCommand n (CFinishes out err code exc)) args
                   has_callback priority now) = Returned r /\
    stdout r = out /\ exit_code r = Some code /\
    (exists rest, stderr r = err ++ rest) /\ (exc = None -> stderr r = err).
Proof.
  unfold run_command; simpl.
  destruct (code =? 0)%Z; destruct exc as [[[k m] tb]|]; simpl;
    (eexists; split; [reflexivity|]); simpl; repeat split; try discriminate;
    try (exists []; rewrite app_nil_r; reflexivity).
  - destruct (is_emptyb err) eqn:E; [destruct err; [|discriminate]; eexists; reflexivity|].
    eexists; reflexivity.
  - destruct (is_emptyb err) eqn:E; [destruct err; [|discriminate]; eexists; reflexivity|].
    eexists; reflexivity.
Qed.

(** One auto-refresh pass visits the panels in order: a fault in one panel
    does not stop the pass, and a cancellation stops it right after the
    cancelled panel. *)
Theorem refresh_pass_visits (order : list str) (outcome : str -> PanelOutcome) :
  let '(started, cancelled) := refresh_pass order outcome in
  if cancelled then
    exists pre p rest, order = pre ++ p :: rest /\ started = pre ++ [p] /\
      outcome p = PanelCancelled /\ Forall (fun q => outcome q <> PanelCancelled) pre
  else started = order /\ Forall (fun q => outcome q <> PanelCancelled) order.
Proof.
  induction order as [|p ps IH]; simpl; [auto|].
  destruct (outcome p) eqn:Ho.
  1,2: destruct (refresh_pass ps outcome) as [st cn];
       destruct cn; [destruct IH as [pre [q [rest [-> [-> [Hq Hpre]]]]]];
                     exists (p :: pre), q, rest; repeat split; auto;
                     constructor; auto; congruence
                    |destruct IH as [-> H]; split; auto; constructor; auto; congruence].
  exists [], p, ps; repeat split; auto.
Qed.

(** The auto-refresh order is a permutation of the five panels, starting
    with the focused panel when it is one of them, else with ["panel-1"]. *)
Theorem refresh_order_perm (focused : option str) :
  Permutation (refresh_order focused) all_panels /\
  hd_error (refresh_order focused) =
    Some (match focused with
          | Some x => if str_mem x all_panels then x else s_ "panel-1"
          | None => s_ "panel-1"
          end).
Proof.
  unfold refresh_order; destruct focused as [x|]; [|split; reflexivity].
  destruct (str_mem x all_panels) eqn:Hm.
  - destruct (is_emptyb x) eqn:He.
    + destruct x; [discriminate Hm|discriminate He].
    + simpl; split; [symmetry; apply str_mem_perm; exact Hm|reflexivity].
  - rewrite andb_false_r; split; reflexivity.
Qed.

(** At most one task is inside [async with lock] at any time, and the lock
    is free only when nobody holds it and nobody waits. *)
Theorem gate_mutual_exclusion (ops : list GateOp) :
  let '(l, holders) := run_ops ops in
  length holders <= 1 /\
  (locked l = true -> length holders = 1) /\
  (locked l = false -> holders = [] /\ waiters l = []).
Proof.
  unfold run_ops.
  pose proof (fold_step_inv ops (mkLock false [], []) ltac:(right; auto)) as H.
  destruct (fold_left step ops (mkLock false [], [])) as [l hs].
  unfold gate_inv in H; simpl in H.
  destruct H as [[H1 H2]|[H1 [H2 H3]]]; rewrite H1; repeat split; subst; simpl;
    auto; try lia; discriminate.
Qed.

End AppExtras.
